(** * Chain-adapter layer of the token bridge: Aptos watcher and redeemers

    A shallow embedding of
    - [node/pkg/aptos/watcher.go] (the Aptos chain watcher), and
    - the SDK's redeem module ([redeemOnNear], [redeemOnSolana],
      [redeemAndUnwrapOnSolana], ...),
    followed by the properties of the specification that concern them.

    Conventions.  A Go [uint64] is a [Z] with its wrap-around written out
    ([uint64 z = z mod 2^64]); byte slices are [list byte]; Go and JS strings
    are [string] (a Go string is indexed by byte, like [string] here).  A
    panic, a thrown exception and a returned error are explicit results. *)

From Stdlib Require Import ZArith List Strings.String Strings.Ascii Strings.Byte.
From Stdlib Require Import Bool Lia DecimalString Sorted.
Import ListNotations.

Set Warnings "-register-all".

Open Scope string_scope.
Open Scope list_scope.
Open Scope Z_scope.

(* ================================================================== *)
(** * Go primitives used by the watcher *)
(* ================================================================== *)

Module Go.

Definition uint8  (z : Z) : Z := z mod 2 ^ 8.
Definition uint16 (z : Z) : Z := z mod 2 ^ 16.
Definition uint32 (z : Z) : Z := z mod 2 ^ 32.
Definition uint64 (z : Z) : Z := z mod 2 ^ 64.

(** [int64(u)] for a [uint64] value [u]: the same bits, read signed. *)
Definition int64 (z : Z) : Z :=
  let u := uint64 z in if u <? 2 ^ 63 then u else u - 2 ^ 64.

Definition byte_of_Z (z : Z) : byte :=
  match Byte.of_N (Z.to_N (z mod 256)) with
  | Some b => b
  | None => x00
  end.

Definition Z_of_byte (b : byte) : Z := Z.of_N (Byte.to_N b).

(** [float64(u)] for a [uint64] value [u], given by the integer the
    resulting float stands for: [u] itself below [2^53]; above, [u]
    rounded to 53 significant bits, to the nearest, ties to the even
    mantissa. *)
Definition float64 (u : Z) : Z :=
  if u <? 2 ^ 53 then u else
  let e := Z.log2 u - 52 in
  let q := Z.shiftr u e in
  let r := u - Z.shiftl q e in
  let half := Z.shiftl 1 (e - 1) in
  let q' :=
    if r <? half then q
    else if half <? r then q + 1
    else if Z.even q then q else q + 1 in
  Z.shiftl q' e.

(** [fmt.Sprintf("%d", v)] for an unsigned [v]. *)
Definition itoa (v : Z) : string :=
  NilZero.string_of_uint (N.to_uint (Z.to_N v)).

(** [make([]byte, n)] *)
Definition make (n : nat) : list byte := repeat x00 n.

(** [binary.BigEndian.PutUint64(b, v)] on a fresh 8-byte slice. *)
Definition PutUint64 (v : Z) : list byte :=
  [ byte_of_Z (Z.shiftr v 56); byte_of_Z (Z.shiftr v 48);
    byte_of_Z (Z.shiftr v 40); byte_of_Z (Z.shiftr v 32);
    byte_of_Z (Z.shiftr v 24); byte_of_Z (Z.shiftr v 16);
    byte_of_Z (Z.shiftr v 8);  byte_of_Z v ].

(** [binary.BigEndian.Uint64(b)]: reads [b[0..7]]; a shorter slice makes
    the bounds check [_ = b[7]] panic, which is [None] here. *)
Definition Uint64 (b : list byte) : option Z :=
  match b with
  | b0 :: b1 :: b2 :: b3 :: b4 :: b5 :: b6 :: b7 :: _ =>
      Some (Z.lor (Z.shiftl (Z_of_byte b0) 56)
           (Z.lor (Z.shiftl (Z_of_byte b1) 48)
           (Z.lor (Z.shiftl (Z_of_byte b2) 40)
           (Z.lor (Z.shiftl (Z_of_byte b3) 32)
           (Z.lor (Z.shiftl (Z_of_byte b4) 24)
           (Z.lor (Z.shiftl (Z_of_byte b5) 16)
           (Z.lor (Z.shiftl (Z_of_byte b6) 8)
                  (Z_of_byte b7))))))))
  | _ => None
  end.

(** [s[n:]] on a string: panics ([None]) when [n > len(s)]. *)
Definition slice_from (n : nat) (s : string) : option string :=
  if (n <=? String.length s)%nat
  then Some (substring n (String.length s - n) s)
  else None.

(** One hexadecimal digit, as [encoding/hex] reads it. *)
Definition fromHexChar (c : ascii) : option Z :=
  let n := Z.of_N (N_of_ascii c) in
  if (48 <=? n) && (n <=? 57) then Some (n - 48)
  else if (97 <=? n) && (n <=? 102) then Some (n - 97 + 10)
  else if (65 <=? n) && (n <=? 70) then Some (n - 65 + 10)
  else None.

(** [hex.DecodeString]: [None] stands for a non-nil error (odd length or
    a character that is not a hexadecimal digit). *)
Fixpoint DecodeString (s : string) : option (list byte) :=
  match s with
  | EmptyString => Some []
  | String _ EmptyString => None
  | String a (String b rest) =>
      match fromHexChar a, fromHexChar b, DecodeString rest with
      | Some h, Some l, Some bs => Some (byte_of_Z (h * 16 + l) :: bs)
      | _, _, _ => None
      end
  end.

(** [eth_common.BytesToHash(b)]: a 32-byte hash, [b] right-aligned; a
    longer [b] is cropped from the left. *)
Definition BytesToHash (b : list byte) : list byte :=
  let b' := skipn (List.length b - 32) b in
  make (32 - List.length b') ++ b'.

End Go.

(* ================================================================== *)
(** * The part of [gjson] the watcher uses *)
(* ================================================================== *)

Module gjson.

(** A parsed JSON value.  Strings are held unescaped ([Result.Str]).
    Arrays and objects keep their raw text, which is what [String()]
    returns for them.  A number keeps its raw text [raw] and carries the
    two values the library derives from [Result.Num], the [float64] the
    literal parses to:
    - [uint], the float-to-uint64 conversion; [Uint()] consults it only
      for literals that are not a short run of digits (sign, fraction,
      exponent, or more than 15 digits);
    - [float_text], which is [strconv.FormatFloat(t.Num, 'f', -1, 64)],
      the shortest decimal text that reads back as the same [float64]
      ([1] for the literal [1.0], [1.5] for [1.50], [1000] for [1e3]);
      [String()] returns it for every literal that is not an optional
      minus sign followed by digits only. *)
Inductive Value : Type :=
| JNull
| JFalse
| JTrue
| JNumber (raw : string) (uint : Z) (float_text : string)
| JString (str : string)
| JArray (raw : string) (elems : list Value)
| JObject (raw : string) (members : list (string * Value)).

(** A [gjson.Result]; [None] is the result of a path that matched
    nothing (type Null with an empty raw text). *)
Definition Result : Type := option Value.

Definition Exists (t : Result) : bool :=
  match t with Some _ => true | None => false end.

Definition is_digit (c : ascii) : bool :=
  let n := N_of_ascii c in ((48 <=? n) && (n <=? 57))%N.

(** [parseUint]: digits only, at least one; the accumulator is a
    [uint64] and wraps. *)
Fixpoint parseUint_from (n : Z) (s : string) : option Z :=
  match s with
  | EmptyString => Some n
  | String c rest =>
      if is_digit c
      then parseUint_from
             (Go.uint64 (n * 10 + (Z.of_N (N_of_ascii c) - 48))) rest
      else None
  end.

Definition parseUint (s : string) : option Z :=
  match s with
  | EmptyString => None
  | _ => parseUint_from 0 s
  end.

Definition Uint (t : Result) : Z :=
  match t with
  | Some JTrue => 1
  | Some (JString str) =>
      match parseUint str with Some n => n | None => 0 end
  | Some (JNumber raw uint _) =>
      match parseUint raw with
      | Some n => if (String.length raw <=? 15)%nat then n else Go.uint64 uint
      | None => Go.uint64 uint
      end
  | _ => 0
  end.

Fixpoint all_digits (s : string) : bool :=
  match s with
  | EmptyString => true
  | String c rest => is_digit c && all_digits rest
  end.

(** The test [String()] makes on the raw text of a number: not empty,
    and, after one optional leading minus sign, digits only. *)
Definition integer_literal (raw : string) : bool :=
  match raw with
  | EmptyString => false
  | String c rest =>
      if Ascii.eqb c "-" then all_digits rest else all_digits raw
  end.

(** [Result.String()], named [String_] because [String] is the constructor
    of [string].  For a number it is the raw text of an integer literal
    and the formatted [float64] of any other literal. *)
Definition String_ (t : Result) : string :=
  match t with
  | None | Some JNull => ""
  | Some JFalse => "false"
  | Some JTrue => "true"
  | Some (JNumber raw _ float_text) =>
      if integer_literal raw then raw else float_text
  | Some (JString str) => str
  | Some (JArray raw _) => raw
  | Some (JObject raw _) => raw
  end.

Fixpoint lookup (key : string) (members : list (string * Value)) : Result :=
  match members with
  | [] => None
  | (k, v) :: rest => if String.eqb k key then Some v else lookup key rest
  end.

(** [Result.Get(path)] for a path that is one plain member name (no dot,
    wildcard, index or modifier), which is how the watcher calls it: the
    first member of that name in an object, nothing elsewhere. *)
Definition Get (t : Result) (path : string) : Result :=
  match t with
  | Some (JObject _ members) => lookup path members
  | _ => None
  end.

(** [Result.Array()]: empty for null or missing, the elements of an
    array, and a one-element slice holding the value itself otherwise. *)
Definition Array (t : Result) : list Result :=
  match t with
  | None | Some JNull => []
  | Some (JArray _ elems) => map Some elems
  | Some v => [Some v]
  end.

(** Building the value a document parses to, with its raw text.  The
    strings used below need no escaping. *)
Definition dq : string := String.String (ascii_of_nat 34) "".

Definition text (v : Value) : string :=
  match v with
  | JNull => "null"
  | JFalse => "false"
  | JTrue => "true"
  | JNumber raw _ _ => raw
  | JString str => (dq ++ str ++ dq)%string
  | JArray raw _ => raw
  | JObject raw _ => raw
  end.

(** The number written as the decimal integer [n]. *)
Definition num (n : Z) : Value := JNumber (Go.itoa n) n (Go.itoa n).

Definition arr (elems : list Value) : Value :=
  JArray ("[" ++ String.concat "," (map text elems) ++ "]")%string elems.

Definition obj (members : list (string * Value)) : Value :=
  JObject
    ("{" ++ String.concat ","
              (map (fun kv => (dq ++ fst kv ++ dq ++ ":" ++ text (snd kv))%string)
                 members) ++ "}")%string
    members.

End gjson.

(* ================================================================== *)
(** * The Aptos watcher ([node/pkg/aptos/watcher.go]) *)
(* ================================================================== *)

Module Aptos.

(** [common.MessagePublication].  [Timestamp] is the number of seconds
    given to [time.Unix]. *)
Record MessagePublication : Type := mkMessagePublication {
  TxHash : list byte;
  Timestamp : Z;
  Nonce : Z;
  Sequence : Z;
  EmitterChain : Z;
  EmitterAddress : list byte;
  Payload : list byte;
  ConsistencyLevel : Z
}.

(** [gossipv1.ObservationRequest]: [ChainId] is a [uint32]. *)
Record ObservationRequest : Type := mkObservationRequest {
  ChainId : Z;
  ReqTxHash : list byte
}.

(** The [Watcher] struct.  [msgChan] holds what was sent on the channel,
    oldest first; [obsvReqC] is the stream of requests fed to [Run]. *)
Record Watcher : Type := mkWatcher {
  aptosRPC : string;
  aptosAccount : string;
  aptosHandle : string;
  aptosQuery : string;
  aptosHealth : string;
  msgChan : list MessagePublication;
  next_sequence : Z
}.

(** Process-wide state the watcher writes: the registry of package p2p,
    the two metrics, the readiness flag; and [requests], the URLs given to
    [http.Get], oldest first. *)
Record Process : Type := mkProcess {
  errorCount : Z;
  networkStats : Z * string;
  currentAptosHeight : Z;
  aptosMessagesConfirmed : Z;
  ready : bool;
  requests : list string
}.

Definition State : Type := (Watcher * Process)%type.

(** What [http.Get] followed by [ioutil.ReadAll] yields. [Malformed] is a
    body that [gjson.Valid] refuses (the empty body included);
    [WellFormed doc] is a body that parses to [doc]. *)
Inductive Body : Type :=
| Malformed (text : string)
| WellFormed (doc : gjson.Value).

Inductive Response : Type :=
| Failed (err : string)
| Got (body : Body).

(** The node behind the RPC address during one iteration of the loop. *)
Definition RPC : Type := string -> Response.

(** How one decoding ends: [return] after a log line, the send on
    [msgChan], or a run-time panic. *)
Inductive Observed : Type :=
| Dropped (log : string)
| Published (m : MessagePublication)
| Panicked (msg : string).

(** How one iteration of the goroutine's loop ends. [Fatal err] is
    [errC <- err], upon which [Run] returns [err]. *)
Inductive Control : Type :=
| Continue
| Fatal (err : string)
| Cancelled
| Panic (msg : string).

(** How [Run] ends on a finite schedule; [Blocked] when the schedule is
    used up and [Run] is still waiting. *)
Inductive Exit : Type :=
| Blocked
| Returned (err : string)
| Crashed (msg : string).

Inductive Event : Type :=
| CtxDone
| ObsvReq (r : ObservationRequest) (rpc : RPC)
| Tick (rpc : RPC).

Definition NewWatcher (aptosRPC aptosAccount aptosHandle : string) : Watcher :=
  {| aptosRPC := aptosRPC; aptosAccount := aptosAccount;
     aptosHandle := aptosHandle; aptosQuery := ""; aptosHealth := "";
     msgChan := []; next_sequence := 0 |}.

Definition set_next_sequence (n : Z) (e : Watcher) : Watcher :=
  {| aptosRPC := aptosRPC e; aptosAccount := aptosAccount e;
     aptosHandle := aptosHandle e; aptosQuery := aptosQuery e;
     aptosHealth := aptosHealth e; msgChan := msgChan e;
     next_sequence := n |}.

Definition send (m : MessagePublication) (e : Watcher) : Watcher :=
  {| aptosRPC := aptosRPC e; aptosAccount := aptosAccount e;
     aptosHandle := aptosHandle e; aptosQuery := aptosQuery e;
     aptosHealth := aptosHealth e; msgChan := msgChan e ++ [m];
     next_sequence := next_sequence e |}.

Definition set_urls (q h : string) (e : Watcher) : Watcher :=
  {| aptosRPC := aptosRPC e; aptosAccount := aptosAccount e;
     aptosHandle := aptosHandle e; aptosQuery := q;
     aptosHealth := h; msgChan := msgChan e;
     next_sequence := next_sequence e |}.

Definition AddErrorCount (n : Z) (p : Process) : Process :=
  {| errorCount := errorCount p + n; networkStats := networkStats p;
     currentAptosHeight := currentAptosHeight p;
     aptosMessagesConfirmed := aptosMessagesConfirmed p;
     ready := ready p; requests := requests p |}.

Definition SetNetworkStats (height : Z) (contract : string) (p : Process)
  : Process :=
  {| errorCount := errorCount p; networkStats := (height, contract);
     currentAptosHeight := currentAptosHeight p;
     aptosMessagesConfirmed := aptosMessagesConfirmed p;
     ready := ready p; requests := requests p |}.

(** [currentAptosHeight.Set(h)]; the gauge holds a [float64]. *)
Definition set_height (h : Z) (p : Process) : Process :=
  {| errorCount := errorCount p; networkStats := networkStats p;
     currentAptosHeight := h;
     aptosMessagesConfirmed := aptosMessagesConfirmed p;
     ready := ready p; requests := requests p |}.

Definition SetReady (p : Process) : Process :=
  {| errorCount := errorCount p; networkStats := networkStats p;
     currentAptosHeight := currentAptosHeight p;
     aptosMessagesConfirmed := aptosMessagesConfirmed p;
     ready := true; requests := requests p |}.

Definition Inc_confirmed (p : Process) : Process :=
  {| errorCount := errorCount p; networkStats := networkStats p;
     currentAptosHeight := currentAptosHeight p;
     aptosMessagesConfirmed := aptosMessagesConfirmed p + 1;
     ready := ready p; requests := requests p |}.

Definition http_Get (s : string) (p : Process) : Process :=
  {| errorCount := errorCount p; networkStats := networkStats p;
     currentAptosHeight := currentAptosHeight p;
     aptosMessagesConfirmed := aptosMessagesConfirmed p;
     ready := ready p; requests := requests p ++ [s] |}.

(** [retrievePayload]: the request is recorded, the node answers. *)
Definition retrievePayload (rpc : RPC) (s : string) (st : State)
  : State * Response :=
  ((fst st, http_Get s (snd st)), rpc s).

Section WithChainID.

(** [vaa.ChainIDAptos]; package vaa is not among the sources. *)
Variable ChainIDAptos : Z.

(** [observeData], up to its last statement: the value is what the
    function does with [e.msgChan] ([Published m] for
    [e.msgChan <- observation]).  The checks come in the order of the
    source. *)
Definition observeData (data : gjson.Result) (native_seq : Z) : Observed :=
  let em := gjson.Get data "sender" in
  if negb (gjson.Exists em) then Dropped "sender" else
  let em_string := gjson.String_ em in
  let em_uint := gjson.Uint em in
  if negb (String.eqb em_string "0") && (em_uint =? 0)
  then Dropped "Invalid emitter" else
  let emitter := Go.PutUint64 (gjson.Uint em) in
  let a := firstn 24 (Go.make 32) ++ emitter in
  let id := Go.PutUint64 native_seq in
  let txHash := Go.BytesToHash id in
  let v := gjson.Get data "payload" in
  if negb (gjson.Exists v) then Dropped "payload" else
  match Go.slice_from 2 (gjson.String_ v) with
  | None => Panicked "slice bounds out of range"
  | Some hx =>
  match Go.DecodeString hx with
  | None => Dropped "payload decode"
  | Some pl =>
  let ts := gjson.Get data "timestamp" in
  if negb (gjson.Exists ts) then Dropped "timestamp" else
  let nonce := gjson.Get data "nonce" in
  if negb (gjson.Exists nonce) then Dropped "nonce" else
  let sequence := gjson.Get data "sequence" in
  if negb (gjson.Exists sequence) then Dropped "sequence" else
  let consistency_level := gjson.Get data "consistency_level" in
  if negb (gjson.Exists consistency_level)
  then Dropped "consistency_level" else
  Published
    {| TxHash := txHash;
       Timestamp := Go.int64 (gjson.Uint ts);
       Nonce := Go.uint32 (gjson.Uint nonce);
       Sequence := gjson.Uint sequence;
       EmitterChain := ChainIDAptos;
       EmitterAddress := a;
       Payload := pl;
       ConsistencyLevel := Go.uint8 (gjson.Uint consistency_level) |}
  end end.

(** The last statements of [observeData] on the state. *)
Definition publish (m : MessagePublication) (st : State) : State :=
  (send m (fst st), Inc_confirmed (snd st)).

(** The [for _, chunk := range outcomes.Array()] of the request case. *)
Fixpoint obsvReq_range (native_seq : Z) (chunks : list gjson.Result)
  (st : State) : State * Control :=
  match chunks with
  | [] => (st, Continue)
  | chunk :: rest =>
      let newSeq := gjson.Get chunk "sequence_number" in
      if negb (gjson.Exists newSeq) then (st, Continue) else
      if negb (gjson.Uint newSeq =? native_seq) then (st, Continue) else
      let data := gjson.Get chunk "data" in
      if negb (gjson.Exists data) then (st, Continue) else
      match observeData data native_seq with
      | Panicked msg => (st, Panic msg)
      | Dropped _ => obsvReq_range native_seq rest st
      | Published m => obsvReq_range native_seq rest (publish m st)
      end
  end.

(** The local [s] of the request case. *)
Definition obsvReq_query (e : Watcher) (native_seq : Z) : string :=
  (aptosQuery e ++ "?start=" ++ Go.itoa native_seq ++ "&limit=1")%string.

(** [case r := <-e.obsvReqC]; [vaa.ChainID] is a [uint16]. *)
Definition Run_obsvReq (rpc : RPC) (r : ObservationRequest) (st : State)
  : State * Control :=
  if negb (Go.uint16 (ChainId r) =? ChainIDAptos)
  then (st, Panic "invalid chain ID") else
  match Go.Uint64 (ReqTxHash r) with
  | None => (st, Panic "index out of range")
  | Some native_seq =>
      let s := obsvReq_query (fst st) native_seq in
      match retrievePayload rpc s st with
      | (st1, Failed err) =>
          ((fst st1, AddErrorCount 1 (snd st1)), Fatal err)
      | (st1, Got (Malformed _)) =>
          ((fst st1, AddErrorCount 1 (snd st1)), Continue)
      | (st1, Got (WellFormed doc)) =>
          obsvReq_range native_seq (gjson.Array (Some doc)) st1
      end
  end.

(** The [for _, chunk := range outcomes.Array()] of the timer case. *)
Fixpoint timer_range (chunks : list gjson.Result) (st : State)
  : State * Control :=
  match chunks with
  | [] => (st, Continue)
  | chunk :: rest =>
      let native_seq := gjson.Get chunk "sequence_number" in
      if negb (gjson.Exists native_seq) then timer_range rest st else
      if next_sequence (fst st) =? 0
      then ((set_next_sequence (Go.uint64 (gjson.Uint native_seq + 1))
               (fst st), snd st), Continue)
      else
        let st1 := (set_next_sequence
                      (Go.uint64 (gjson.Uint native_seq + 1)) (fst st),
                    snd st) in
        let data := gjson.Get chunk "data" in
        if negb (gjson.Exists data) then timer_range rest st1 else
        match observeData data (gjson.Uint native_seq) with
        | Panicked msg => (st1, Panic msg)
        | Dropped _ => timer_range rest st1
        | Published m => timer_range rest (publish m st1)
        end
  end.

(** The health query that ends the timer case. *)
Definition Run_health (rpc : RPC) (st : State) : State * Control :=
  match retrievePayload rpc (aptosHealth (fst st)) st with
  | (st1, Failed err) =>
      ((fst st1, AddErrorCount 1 (snd st1)), Fatal err)
  | (st1, Got (Malformed _)) =>
      ((fst st1, AddErrorCount 1 (snd st1)), Continue)
  | (st1, Got (WellFormed health)) =>
      let block_height := gjson.Get (Some health) "block_height" in
      if gjson.Exists block_height
      then ((fst st1,
             SetReady
               (SetNetworkStats (Go.int64 (gjson.Uint block_height))
                  (aptosAccount (fst st1))
                  (set_height (Go.float64 (gjson.Uint block_height))
                     (snd st1)))),
            Continue)
      else (st1, Continue)
  end.

Definition body_is_empty (b : Body) : bool :=
  match b with
  | Malformed text => String.eqb text ""
  | WellFormed _ => false
  end.

(** The local [s] of the timer case. *)
Definition timer_query (e : Watcher) : string :=
  if next_sequence e =? 0
  then (aptosQuery e ++ "?limit=1")%string
  else (aptosQuery e ++ "?start=" ++ Go.itoa (next_sequence e))%string.

(** [case <-timer.C] *)
Definition Run_timer (rpc : RPC) (st : State) : State * Control :=
  let s := timer_query (fst st) in
  match retrievePayload rpc s st with
  | (st1, Failed err) =>
      ((fst st1, AddErrorCount 1 (snd st1)), Fatal err)
  | (st1, Got body) =>
      if body_is_empty body then (st1, Continue) else
      match body with
      | Malformed _ => ((fst st1, AddErrorCount 1 (snd st1)), Continue)
      | WellFormed doc =>
          match timer_range (gjson.Array (Some doc)) st1 with
          | (st2, Continue) => Run_health rpc st2
          | (st2, c) => (st2, c)
          end
      end
  end.

(** One iteration of [for { select { ... } }]. *)
Definition Run_select (ev : Event) (st : State) : State * Control :=
  match ev with
  | CtxDone => (st, Cancelled)
  | ObsvReq r rpc => Run_obsvReq rpc r st
  | Tick rpc => Run_timer rpc st
  end.

(** The loop against a schedule of events, until [Run] returns: on
    cancellation with [ctx.Err()], on [errC <- err] with [err]. *)
Fixpoint Run_loop (sched : list Event) (st : State) : State * Exit :=
  match sched with
  | [] => (st, Blocked)
  | ev :: rest =>
      match Run_select ev st with
      | (st1, Continue) => Run_loop rest st1
      | (st1, Fatal err) => (st1, Returned err)
      | (st1, Cancelled) => (st1, Returned "context canceled")
      | (st1, Panic msg) => (st1, Crashed msg)
      end
  end.

Definition Run (sched : list Event) (st : State) : State * Exit :=
  let e := fst st in
  let p := SetNetworkStats 0 (aptosAccount e) (snd st) in
  let e1 :=
    set_urls
      (aptosRPC e ++ "/v1/accounts/" ++ aptosAccount e ++ "/events/"
         ++ aptosHandle e ++ "/event")%string
      (aptosRPC e ++ "/v1")%string e in
  Run_loop sched (e1, p).

(** ** Vocabulary for the statements about a page of events *)

(** The sequence number the watcher reads off a page entry. *)
Definition chunk_seq (chunk : gjson.Result) : Z :=
  gjson.Uint (gjson.Get chunk "sequence_number").

Definition has_seq (chunk : gjson.Result) : Prop :=
  gjson.Exists (gjson.Get chunk "sequence_number") = true.

(** The message a page entry decodes to, if any. *)
Definition decoded (chunk : gjson.Result) : list MessagePublication :=
  match observeData (gjson.Get chunk "data") (chunk_seq chunk) with
  | Published m => [m]
  | _ => []
  end.

Definition decodes_without_panic (chunk : gjson.Result) : Prop :=
  forall msg,
    observeData (gjson.Get chunk "data") (chunk_seq chunk) <> Panicked msg.

(** ** Vocabulary for the statements about one event *)

(** The [observation] of [observeData], for an event whose payload
    decoded to [pl]. *)
Definition observation (data : gjson.Result) (native_seq : Z)
  (pl : list byte) : MessagePublication :=
  {| TxHash := Go.BytesToHash (Go.PutUint64 native_seq);
     Timestamp := Go.int64 (gjson.Uint (gjson.Get data "timestamp"));
     Nonce := Go.uint32 (gjson.Uint (gjson.Get data "nonce"));
     Sequence := gjson.Uint (gjson.Get data "sequence");
     EmitterChain := ChainIDAptos;
     EmitterAddress :=
       firstn 24 (Go.make 32)
         ++ Go.PutUint64 (gjson.Uint (gjson.Get data "sender"));
     Payload := pl;
     ConsistencyLevel :=
       Go.uint8 (gjson.Uint (gjson.Get data "consistency_level")) |}.

(** The emitter check lets the sender of [data] through: its text is
    [0], or it reads as a number other than zero. *)
Definition emitter_ok (data : gjson.Result) : Prop :=
  gjson.String_ (gjson.Get data "sender") = "0" \/
  gjson.Uint (gjson.Get data "sender") <> 0.

(** What [observeData] needs after the emitter check: a payload whose
    text, past its two first characters, is the hex of [pl], and the four
    other fields. *)
Definition fields_decode (data : gjson.Result) (pl : list byte) : Prop :=
  gjson.Exists (gjson.Get data "payload") = true /\
  (exists hx,
     Go.slice_from 2 (gjson.String_ (gjson.Get data "payload")) = Some hx /\
     Go.DecodeString hx = Some pl) /\
  gjson.Exists (gjson.Get data "timestamp") = true /\
  gjson.Exists (gjson.Get data "nonce") = true /\
  gjson.Exists (gjson.Get data "sequence") = true /\
  gjson.Exists (gjson.Get data "consistency_level") = true.

(** ** Vocabulary for the statements about a request *)

(** An entry that the loop of the request case hands to [observeData]
    when asked for [S]: it has a sequence number, which is [S], and it
    has data. *)
Definition answers (S : Z) (chunk : gjson.Result) : Prop :=
  has_seq chunk /\ chunk_seq chunk = S /\
  gjson.Exists (gjson.Get chunk "data") = true.

(** The state once the query for [S] has gone out. *)
Definition asked (S : Z) (st : State) : State :=
  (fst st, http_Get (obsvReq_query (fst st) S) (snd st)).

(** The messages [ms] sent one after the other. *)
Definition publish_all (ms : list MessagePublication) (st : State) : State :=
  fold_left (fun s m => publish m s) ms st.

End WithChainID.

(** The hash the watcher derives from a native sequence number. *)
Definition hash_of_seq (seq : Z) : list byte :=
  Go.BytesToHash (Go.PutUint64 seq).

(** ** Vocabulary for the statements about a run *)

(** A message as the watcher builds it: from chain [K], with a 32-byte
    hash and a 32-byte emitter address whose 24 leading bytes are zero, and
    every number within its Go type. *)
Definition well_formed (K : Z) (m : MessagePublication) : Prop :=
  EmitterChain m = K /\
  List.length (TxHash m) = 32%nat /\
  firstn 24 (TxHash m) = repeat x00 24 /\
  List.length (EmitterAddress m) = 32%nat /\
  firstn 24 (EmitterAddress m) = repeat x00 24 /\
  0 <= Nonce m < 2 ^ 32 /\
  0 <= Sequence m < 2 ^ 64 /\
  0 <= ConsistencyLevel m < 2 ^ 8 /\
  - 2 ^ 63 <= Timestamp m < 2 ^ 63.

Definition same_config (e e' : Watcher) : Prop :=
  aptosRPC e' = aptosRPC e /\
  aptosAccount e' = aptosAccount e /\
  aptosHandle e' = aptosHandle e /\
  aptosQuery e' = aptosQuery e /\
  aptosHealth e' = aptosHealth e.

(** A URL of the watcher [e]: its health address, or its event query
    followed by parameters. *)
Definition own_url (e : Watcher) (u : string) : Prop :=
  u = aptosHealth e \/ exists params, u = (aptosQuery e ++ params)%string.

(** [st'] comes after [st]: the configuration is the same; messages, all
    well formed, were appended to the channel and counted; requests, all
    to the watcher's own URLs, were appended to the log; the error count
    did not go down; readiness was not withdrawn. *)
Definition extends (K : Z) (st st' : State) : Prop :=
  same_config (fst st) (fst st') /\
  (exists new,
     msgChan (fst st') = msgChan (fst st) ++ new /\
     Forall (well_formed K) new /\
     aptosMessagesConfirmed (snd st')
       = aptosMessagesConfirmed (snd st) + Z.of_nat (List.length new)) /\
  (exists urls,
     requests (snd st') = requests (snd st) ++ urls /\
     Forall (own_url (fst st)) urls) /\
  errorCount (snd st) <= errorCount (snd st') /\
  (ready (snd st) = true -> ready (snd st') = true).

(** The node's health answer is JSON and carries a block height. *)
Definition reports_height (rpc : RPC) (health_url : string) : Prop :=
  exists health,
    rpc health_url = Got (WellFormed health) /\
    gjson.Exists (gjson.Get (Some health) "block_height") = true.

(** The entry a cold poll takes its cursor from. *)
Definition first_with_seq (page : list gjson.Result) : option gjson.Result :=
  find (fun c => gjson.Exists (gjson.Get c "sequence_number")) page.

End Aptos.

(* ================================================================== *)
(** * The redeem module of the SDK *)
(* ================================================================== *)

Module Redeem.

(** A JS call either returns or throws. *)
Inductive Outcome (A : Type) : Type :=
| Return (a : A)
| Throw (msg : string).
Arguments Return {A} a.
Arguments Throw {A} msg.

Definition bind {A B : Type} (m : Outcome A) (k : A -> Outcome B)
  : Outcome B :=
  match m with
  | Return a => k a
  | Throw msg => Throw msg
  end.

(** A call into another module: [None] is an exception thrown there. *)
Definition try {A : Type} (o : option A) (msg : string) : Outcome A :=
  match o with
  | Some a => Return a
  | None => Throw msg
  end.

Notation "'let*' x ':=' m 'in' k" := (bind m (fun x => k))
  (at level 10, x name, m at level 100, k at level 200).

(** ** What the module imports *)

(** [parse_vaa] of the core wasm module: only [payload] is read. *)
Record ParsedVAA : Type := mkParsedVAA {
  payload : list byte
}.

(** The result of [parseTransferPayload]. *)
Record TransferPayload : Type := mkTransferPayload {
  amount : Z;
  originAddress : string;
  originChain : Z;
  targetAddress : string;
  targetChain : Z;
  fee : option Z
}.

(** The members of the result of [_parseVAAAlgorand] that [redeemOnNear]
    reads; a member that may be [undefined] is an option. *)
Record AlgorandVAA : Type := mkAlgorandVAA {
  ToChain : option Z;
  ToAddress : list byte;
  FromChain : Z;
  Contract : string;
  Fee : option (list byte)
}.

(** The constants and functions imported from [../utils],
    [../solana/wasm], [../algorand] and [@solana/web3.js], none of which
    is among the sources.  A function that may throw returns an option;
    [isPublicKey s] says whether [new PublicKey(s)] returns. *)
Record Sdk : Type := mkSdk {
  CHAIN_ID_NEAR : Z;
  CHAIN_ID_SOLANA : Z;
  MAX_VAA_DECIMALS : Z;
  WSOL_DECIMALS : Z;
  WSOL_ADDRESS : string;
  TOKEN_PROGRAM_ID : string;
  AccountLayout_span : Z;
  parse_vaa : list byte -> option ParsedVAA;
  parseTransferPayload : list byte -> option TransferPayload;
  _parseVAAAlgorand : list byte -> option AlgorandVAA;
  hexToNativeString : string -> Z -> option string;
  uint8ArrayToHex : list byte -> string;
  fromUint8Array : list byte -> string;
  isPublicKey : string -> bool
}.

(** ** Solana *)

Definition PublicKey : Type := string.

Record Keypair : Type := mkKeypair {
  publicKey : PublicKey;
  secretKey : list byte
}.

(** What the [Connection] answers during one call; [None] is a rejected
    promise. *)
Record Connection : Type := mkConnection {
  getMinBalanceRentForExemptAccount : option Z;
  getRecentBlockhash : option string
}.

(** Instructions, by the function that builds them and its arguments.
    The builders belong to [@solana/web3.js], [@solana/spl-token] and the
    token bridge's wasm module, which are not among the sources: an
    instruction stands for the call, with the arguments the redeemer
    passes ([amount] is the integer given to [new u64]).  What a builder
    makes of its arguments, and whether it accepts them (a [u64] holds 8
    bytes), is outside this model. *)
Inductive Instruction : Type :=
| complete_transfer_native_ix
    (tokenBridgeAddress bridgeAddress payerAddress : string)
    (signedVAA : list byte) (feeRecipientAddress : option string)
| complete_transfer_wrapped_ix
    (tokenBridgeAddress bridgeAddress payerAddress : string)
    (signedVAA : list byte) (feeRecipientAddress : option string)
| createAccount
    (fromPubkey newAccountPubkey : PublicKey) (lamports space : Z)
    (programId : PublicKey)
| createInitAccountInstruction
    (programId mint account owner : PublicKey)
| createTransferInstruction
    (programId source destination owner : PublicKey)
    (multiSigners : list PublicKey) (amount : Z)
| createCloseAccountInstruction
    (programId account dest owner : PublicKey)
    (multiSigners : list PublicKey).

(** A [Transaction]; [signatures] lists the keys that have signed. *)
Record Transaction : Type := mkTransaction {
  recentBlockhash : option string;
  feePayer : option PublicKey;
  instructions : list Instruction;
  signatures : list PublicKey
}.

Definition new_Transaction : Transaction :=
  {| recentBlockhash := None; feePayer := None; instructions := [];
     signatures := [] |}.

Definition set_recentBlockhash (b : string) (t : Transaction) : Transaction :=
  {| recentBlockhash := Some b; feePayer := feePayer t;
     instructions := instructions t; signatures := signatures t |}.

Definition set_feePayer (k : PublicKey) (t : Transaction) : Transaction :=
  {| recentBlockhash := recentBlockhash t; feePayer := Some k;
     instructions := instructions t; signatures := signatures t |}.

Definition add (ixs : list Instruction) (t : Transaction) : Transaction :=
  {| recentBlockhash := recentBlockhash t; feePayer := feePayer t;
     instructions := instructions t ++ ixs; signatures := signatures t |}.

Definition partialSign (k : Keypair) (t : Transaction) : Transaction :=
  {| recentBlockhash := recentBlockhash t; feePayer := feePayer t;
     instructions := instructions t;
     signatures := signatures t ++ [publicKey k] |}.

(** [Buffer.readUInt16BE(offset)]; [None] is its RangeError. *)
Definition readUInt16BE (offset : nat) (b : list byte) : option Z :=
  match skipn offset b with
  | hi :: lo :: _ => Some (Go.Z_of_byte hi * 256 + Go.Z_of_byte lo)
  | _ => None
  end.

(** A message for Terra: [MsgExecuteContract(sender, contract, msg)] with
    [msg = { submit_vaa: { data } }]. *)
Record MsgExecuteContract : Type := mkMsgExecuteContract {
  sender : string;
  contract : string;
  submit_vaa_data : string
}.

Section WithSdk.

Variable sdk : Sdk.

Definition new_PublicKey (s : string) : Outcome PublicKey :=
  if isPublicKey sdk s then Return s else Throw "Invalid public key input".

Definition redeemOnTerra (tokenBridgeAddress walletAddress : string)
  (signedVAA : list byte) : Outcome MsgExecuteContract :=
  Return {| sender := walletAddress; contract := tokenBridgeAddress;
            submit_vaa_data := fromUint8Array sdk signedVAA |}.

(** The local [targetAmount] of [redeemAndUnwrapOnSolana]. *)
Definition targetAmount (amount : Z) : Z :=
  amount * (WSOL_DECIMALS sdk - MAX_VAA_DECIMALS sdk) * 10.

(** [ancillaryKeypair] is the value of [Keypair.generate()]. *)
Definition redeemAndUnwrapOnSolana (connection : Connection)
  (ancillaryKeypair : Keypair)
  (bridgeAddress tokenBridgeAddress payerAddress : string)
  (signedVAA : list byte) : Outcome Transaction :=
  let* parsedVAA := try (parse_vaa sdk signedVAA) "parse_vaa" in
  let* parsedPayload :=
    try (parseTransferPayload sdk (payload parsedVAA))
      "parseTransferPayload" in
  let* targetAddress :=
    match hexToNativeString sdk (targetAddress parsedPayload)
            (CHAIN_ID_SOLANA sdk) with
    | None => Throw "Failed to read the target address."
    | Some a =>
        if String.eqb a "" then Throw "Failed to read the target address."
        else Return a
    end in
  let* targetPublicKey := new_PublicKey targetAddress in
  let targetAmount := targetAmount (amount parsedPayload) in
  let* rentBalance :=
    try (getMinBalanceRentForExemptAccount connection)
      "getMinBalanceRentForExemptAccount" in
  let* mintPublicKey := new_PublicKey (WSOL_ADDRESS sdk) in
  let* payerPublicKey := new_PublicKey payerAddress in
  let completeTransferIx :=
    complete_transfer_native_ix tokenBridgeAddress bridgeAddress
      payerAddress signedVAA None in
  let createAncillaryAccountIx :=
    createAccount payerPublicKey (publicKey ancillaryKeypair) rentBalance
      (AccountLayout_span sdk) (TOKEN_PROGRAM_ID sdk) in
  let initAccountIx :=
    createInitAccountInstruction (TOKEN_PROGRAM_ID sdk) mintPublicKey
      (publicKey ancillaryKeypair) payerPublicKey in
  let balanceTransferIx :=
    createTransferInstruction (TOKEN_PROGRAM_ID sdk) targetPublicKey
      (publicKey ancillaryKeypair) payerPublicKey [] targetAmount in
  let closeAccountIx :=
    createCloseAccountInstruction (TOKEN_PROGRAM_ID sdk)
      (publicKey ancillaryKeypair) payerPublicKey payerPublicKey [] in
  let* blockhash :=
    try (getRecentBlockhash connection) "getRecentBlockhash" in
  let transaction := new_Transaction in
  let transaction := set_recentBlockhash blockhash transaction in
  let* payer := new_PublicKey payerAddress in
  let transaction := set_feePayer payer transaction in
  let transaction := add [completeTransferIx] transaction in
  let transaction := add [createAncillaryAccountIx] transaction in
  let transaction := add [initAccountIx] transaction in
  let transaction := add [balanceTransferIx] transaction in
  let transaction := add [closeAccountIx] transaction in
  let transaction := partialSign ancillaryKeypair transaction in
  Return transaction.

Definition redeemOnSolana (connection : Connection)
  (bridgeAddress tokenBridgeAddress payerAddress : string)
  (signedVAA : list byte) (feeRecipientAddress : option string)
  : Outcome Transaction :=
  let* parsedVAA := try (parse_vaa sdk signedVAA) "parse_vaa" in
  let* originChain :=
    try (readUInt16BE 65 (payload parsedVAA)) "RangeError" in
  let isSolanaNative := originChain =? CHAIN_ID_SOLANA sdk in
  let ixs :=
    if isSolanaNative
    then [complete_transfer_native_ix tokenBridgeAddress bridgeAddress
            payerAddress signedVAA feeRecipientAddress]
    else [complete_transfer_wrapped_ix tokenBridgeAddress bridgeAddress
            payerAddress signedVAA feeRecipientAddress] in
  let transaction := add ixs new_Transaction in
  let* blockhash :=
    try (getRecentBlockhash connection) "getRecentBlockhash" in
  let transaction := set_recentBlockhash blockhash transaction in
  let* payer := new_PublicKey payerAddress in
  let transaction := set_feePayer payer transaction in
  Return transaction.

(** ** Vocabulary for the statements about the unwrap transaction *)

(** The five instructions of an unwrap, for a recipient account
    [target], a rent-exempt balance [rent] and a transfer of [amount]. *)
Definition unwrap_instructions (ancillaryKeypair : Keypair)
  (bridgeAddress tokenBridgeAddress payerAddress : string)
  (signedVAA : list byte) (target : PublicKey) (rent amount : Z)
  : list Instruction :=
  [ complete_transfer_native_ix tokenBridgeAddress bridgeAddress
      payerAddress signedVAA None;
    createAccount payerAddress (publicKey ancillaryKeypair) rent
      (AccountLayout_span sdk) (TOKEN_PROGRAM_ID sdk);
    createInitAccountInstruction (TOKEN_PROGRAM_ID sdk) (WSOL_ADDRESS sdk)
      (publicKey ancillaryKeypair) payerAddress;
    createTransferInstruction (TOKEN_PROGRAM_ID sdk) target
      (publicKey ancillaryKeypair) payerAddress [] amount;
    createCloseAccountInstruction (TOKEN_PROGRAM_ID sdk)
      (publicKey ancillaryKeypair) payerAddress payerAddress [] ].

(** Everything [redeemAndUnwrapOnSolana] needs from outside to get to
    its [return]. *)
Definition unwrap_inputs_ok (connection : Connection)
  (payerAddress : string) (signedVAA : list byte)
  (p : TransferPayload) (target : PublicKey) (rent : Z)
  (blockhash : string) : Prop :=
  (exists v, parse_vaa sdk signedVAA = Some v /\
             parseTransferPayload sdk (payload v) = Some p) /\
  hexToNativeString sdk (targetAddress p) (CHAIN_ID_SOLANA sdk)
    = Some target /\
  target <> "" /\
  isPublicKey sdk target = true /\
  getMinBalanceRentForExemptAccount connection = Some rent /\
  isPublicKey sdk (WSOL_ADDRESS sdk) = true /\
  isPublicKey sdk payerAddress = true /\
  getRecentBlockhash connection = Some blockhash.

End WithSdk.

(** ** The rescaling of the specification *)

(** In the specification's words, not the code's: a wire amount at the
    wire precision [d_max] brought to the destination precision [d_dst]
    is multiplied by ten to the difference when [d_dst] is not below
    [d_max], and otherwise divided by ten to the difference, the excess
    digits cut off.  The code's [targetAmount] is compared with it. *)
Definition spec_rescale (d_max d_dst amount : Z) : Z :=
  if d_max <=? d_dst
  then amount * 10 ^ (d_dst - d_max)
  else amount / 10 ^ (d_max - d_dst).

(** ** NEAR *)

(** The JS values that cross the client's interface. *)
Inductive JsValue : Type :=
| JsUndefined
| JsNull
| JsBool (b : bool)
| JsString (s : string)
| JsArray (elems : list JsValue)
| JsObject (members : list (string * JsValue)).

(** The argument of [client.functionCall]; the amounts are the decimal
    strings given to [new BN]. *)
Record FunctionCall : Type := mkFunctionCall {
  contractId : string;
  methodName : string;
  args : list (string * JsValue);
  gas : Z;
  attachedDeposit : Z
}.

Record FinalExecutionOutcome : Type := mkFinalExecutionOutcome {
  lastResult : JsValue
}.

Definition getTransactionLastResult (o : FinalExecutionOutcome) : JsValue :=
  lastResult o.

(** What the client was asked to do, in order. *)
Inductive Op : Type :=
| ViewFunction (contractId methodName : string)
    (args : list (string * JsValue))
| GetForeignAsset (tokenBridge : string) (chain : Z) (contract : string)
| Call (c : FunctionCall).

(** [v[i]]: a TypeError ([None]) on [null] and [undefined]. *)
Definition index (v : JsValue) (i : nat) : option JsValue :=
  match v with
  | JsUndefined | JsNull => None
  | JsArray elems => Some (nth i elems JsUndefined)
  | JsString s =>
      Some (match String.get i s with
            | Some c => JsString (String.String c "")
            | None => JsUndefined
            end)
  | JsObject members =>
      Some (match find (fun kv => String.eqb (fst kv) (Go.itoa (Z.of_nat i)))
                    members with
            | Some kv => snd kv
            | None => JsUndefined
            end)
  | JsBool _ => Some JsUndefined
  end.

(** [!v] *)
Definition falsy (v : JsValue) : bool :=
  match v with
  | JsUndefined | JsNull | JsBool false | JsString "" => true
  | _ => false
  end.

(** [v === null] *)
Definition is_null (v : JsValue) : bool :=
  match v with JsNull => true | _ => false end.

(** [Buffer.compare(a, b)]: bytewise, then by length. *)
Fixpoint Buffer_compare (a b : list byte) : Z :=
  match a, b with
  | [], [] => 0
  | [], _ :: _ => -1
  | _ :: _, [] => 1
  | x :: a', y :: b' =>
      if Go.Z_of_byte x <? Go.Z_of_byte y then -1
      else if Go.Z_of_byte y <? Go.Z_of_byte x then 1
      else Buffer_compare a' b'
  end.

(** [Buffer.from("00...00", "hex")], 64 zeros. *)
Definition zero_fee : list byte := repeat x00 32.

Definition zero_contract : string :=
  "0000000000000000000000000000000000000000000000000000000000000000".

Section Near.

(** The chain as the client sees it. *)
Variable W : Type.

(** A [nearAccount]: its id and what its calls do to the chain.  [None]
    is a rejected promise.  [getForeignAssetNear] is the function of
    that name of the SDK, which works through the client and is not among
    the sources; its result is a string here, as the redeemer's
    [token as string] takes it to be, and a [null] result is not
    represented. *)
Record Account : Type := mkAccount {
  accountId : string;
  viewFunction :
    W -> string -> string -> list (string * JsValue) -> option JsValue;
  functionCall : W -> FunctionCall -> option (FinalExecutionOutcome * W);
  getForeignAssetNear : W -> string -> Z -> string -> option string
}.

(** The chain and the operations issued so far, oldest first. *)
Definition St : Type := (W * list Op)%type.

Definition M (A : Type) : Type := St -> Outcome A * St.

Definition ret {A : Type} (a : A) : M A := fun st => (Return a, st).

Definition throw {A : Type} (msg : string) : M A :=
  fun st => (Throw msg, st).

Definition mbind {A B : Type} (m : M A) (k : A -> M B) : M B :=
  fun st =>
    match m st with
    | (Return a, st1) => k a st1
    | (Throw msg, st1) => (Throw msg, st1)
    end.

Notation "x <- m ;; k" := (mbind m (fun x => k))
  (at level 61, m at next level, right associativity).

Variable sdk : Sdk.
Variable client : Account.

Definition client_viewFunction (contractId methodName : string)
  (args : list (string * JsValue)) : M JsValue :=
  fun st =>
    let st1 := (fst st, snd st ++ [ViewFunction contractId methodName args]) in
    match viewFunction client (fst st) contractId methodName args with
    | Some v => (Return v, st1)
    | None => (Throw "viewFunction", st1)
    end.

Definition client_functionCall (c : FunctionCall)
  : M FinalExecutionOutcome :=
  fun st =>
    let log := snd st ++ [Call c] in
    match functionCall client (fst st) c with
    | Some (o, w) => (Return o, (w, log))
    | None => (Throw "functionCall", (fst st, log))
    end.

Definition client_getForeignAssetNear (tokenBridge : string) (chain : Z)
  (contract : string) : M string :=
  fun st =>
    let st1 := (fst st, snd st ++ [GetForeignAsset tokenBridge chain contract]) in
    match getForeignAssetNear client (fst st) tokenBridge chain contract with
    | Some t => (Return t, st1)
    | None => (Throw "getForeignAssetNear", st1)
    end.

Definition storage_deposit (token : string) (account : JsValue)
  : FunctionCall :=
  {| contractId := token; methodName := "storage_deposit";
     args := [("account_id", account); ("registration_only", JsBool true)];
     gas := 100000000000000;
     attachedDeposit := 2000000000000000000000 |}.

Definition submit_vaa (tokenBridge : string) (vaa : list byte)
  : FunctionCall :=
  {| contractId := tokenBridge; methodName := "submit_vaa";
     args := [("vaa", JsString (uint8ArrayToHex sdk vaa))];
     attachedDeposit := 100000000000000000000000;
     gas := 150000000000000 |}.

Definition redeemOnNear (tokenBridge : string) (vaa : list byte)
  : M JsValue :=
  match _parseVAAAlgorand sdk vaa with
  | None => throw "_parseVAAAlgorand"
  | Some p =>
  if negb (match ToChain p with
           | Some c => c =? CHAIN_ID_NEAR sdk
           | None => false
           end)
  then throw "Not destined for NEAR" else
  user <- client_viewFunction tokenBridge "hash_lookup"
            [("hash", JsString (uint8ArrayToHex sdk (ToAddress p)))] ;;
  user0 <- (match index user 0 with
            | Some v => ret v
            | None => throw "TypeError"
            end) ;;
  if falsy user0
  then throw "Unregistered receiver (receiving account is not registered)"
  else
  user <- (match index user 1 with
           | Some v => ret v
           | None => throw "TypeError"
           end) ;;
  token <- client_getForeignAssetNear tokenBridge (FromChain p)
             (Contract p) ;;
  if String.eqb token ""
  then throw "Unregistered token (this been attested yet?)" else
  _ <- (if negb (String.eqb (Contract p) zero_contract) then
          bal <- client_viewFunction token "storage_balance_of"
                   [("account_id", user)] ;;
          _ <- (if is_null bal then
                  bal <- client_functionCall (storage_deposit token user) ;;
                  ret tt
                else ret tt) ;;
          if match Fee p with
             | Some f => negb (Buffer_compare f zero_fee =? 0)
             | None => false
             end
          then
            bal <- client_viewFunction token "storage_balance_of"
                     [("account_id", JsString (accountId client))] ;;
            if is_null bal then
              bal <- client_functionCall
                       (storage_deposit token
                          (JsString (accountId client))) ;;
              ret tt
            else ret tt
          else ret tt
        else ret tt) ;;
  result <- client_functionCall (submit_vaa tokenBridge vaa) ;;
  result <- client_functionCall (submit_vaa tokenBridge vaa) ;;
  ret (getTransactionLastResult result)
  end.

(** ** Vocabulary for the statements about registration *)

Definition storage_balance_of (token : string) (account : JsValue) : Op :=
  ViewFunction token "storage_balance_of" [("account_id", account)].

(** [account] has no storage balance with [token] on chain [w]. *)
Definition unregistered (w : W) (token : string) (account : JsValue)
  : bool :=
  match viewFunction client w token "storage_balance_of"
          [("account_id", account)] with
  | Some bal => is_null bal
  | None => false
  end.

(** The chain once [account] has been looked up and, if need be,
    registered. *)
Definition after_registration (w : W) (token : string)
  (account : JsValue) : W :=
  if unregistered w token account
  then match functionCall client w (storage_deposit token account) with
       | Some (_, w1) => w1
       | None => w
       end
  else w.

(** No call through the client is rejected. *)
Definition reliable : Prop :=
  (forall w c m a, viewFunction client w c m a <> None) /\
  (forall w c, functionCall client w c <> None) /\
  (forall w b c a, getForeignAssetNear client w b c a <> None).

End Near.

Arguments accountId {W} _.
Arguments viewFunction {W} _ _ _ _ _.
Arguments functionCall {W} _ _ _.
Arguments getForeignAssetNear {W} _ _ _ _ _.
Arguments ret {W A} _ _.
Arguments throw {W A} _ _.
Arguments mbind {W A B} _ _ _.
Arguments client_viewFunction {W} _ _ _ _ _.
Arguments client_functionCall {W} _ _ _.
Arguments client_getForeignAssetNear {W} _ _ _ _ _.
Arguments redeemOnNear {W} _ _ _ _ _.
Arguments unregistered {W} _ _ _ _.
Arguments after_registration {W} _ _ _ _.
Arguments reliable {W} _.

(** ** Vocabulary for the statements about what a redemption costs *)

(** The deposit attached to the function calls among [ops], in total. *)
Definition attached (ops : list Op) : Z :=
  fold_right (fun op acc => match op with
                            | Call c => attachedDeposit c + acc
                            | _ => acc
                            end) 0 ops.

(** The gas allowed to the function calls among [ops], in total. *)
Definition gas_allowed (ops : list Op) : Z :=
  fold_right (fun op acc => match op with
                            | Call c => gas c + acc
                            | _ => acc
                            end) 0 ops.

End Redeem.

(* ================================================================== *)
(** * Sample inputs *)
(* ================================================================== *)

Module Sample.
Import gjson Aptos.

Definition ChainIDAptos : Z := 22.

(** The [data] member of a bridge event as the node serialises it: every
    number is a JSON string, the payload is hex after [0x]. *)
Definition event_data (sender payload timestamp nonce sequence cl : string)
  : Value :=
  obj [ ("consistency_level", JString cl); ("nonce", JString nonce);
        ("payload", JString payload); ("sender", JString sender);
        ("sequence", JString sequence); ("timestamp", JString timestamp) ].

Definition event (sequence_number : string) (data : Value) : Value :=
  obj [ ("data", data); ("sequence_number", JString sequence_number) ].

Definition watcher (next : Z) : Watcher :=
  {| aptosRPC := "http://node"; aptosAccount := "0x1";
     aptosHandle := "0x1::state::WormholeMessageHandle";
     aptosQuery := "http://node/v1/accounts/0x1/events/0x1::state::WormholeMessageHandle/event";
     aptosHealth := "http://node/v1";
     msgChan := []; next_sequence := next |}.

Definition process : Process :=
  {| errorCount := 0; networkStats := (0, "0x1"); currentAptosHeight := 0;
     aptosMessagesConfirmed := 0; ready := false; requests := [] |}.

(** A node that answers the event query with [page] and the health query
    with [health]. *)
Definition node (health : Response) (page : Response) : RPC :=
  fun url => if String.eqb url "http://node/v1" then health else page.

Definition healthy : Response :=
  Got (WellFormed (obj [ ("block_height", JString "1000");
                         ("chain_id", num 1) ])).

(** All six fields present, but a payload of fewer than two characters. *)
Definition short_payload : Value :=
  event_data "1" "" "1666000000" "7" "3" "0".

(** The timestamp is missing and the payload has one character. *)
Definition no_timestamp_short_payload : Value :=
  obj [ ("payload", JString "0"); ("sender", JString "1") ].

(** Two emitters in one page: event 5 is emitter 1's message 9, event 6 is
    emitter 2's message 3. *)
Definition two_emitters : Value :=
  arr [ event "5" (event_data "1" "0x01" "1666000000" "0" "9" "0");
        event "6" (event_data "2" "0x02" "1666000001" "0" "3" "0") ].

(** The event query is answered with an empty page, the health query
    fails in transport. *)
Definition health_down : RPC :=
  node (Failed "EOF") (Got (WellFormed (arr []))).

(** The event query is answered with an empty page, the health answer is
    not JSON. *)
Definition health_garbled : RPC :=
  node (Got (Malformed "<html>502</html>")) (Got (WellFormed (arr []))).

(** A page with one event whose payload is too short to slice. *)
Definition short_payload_page : RPC :=
  node healthy (Got (WellFormed (arr [event "5" short_payload]))).

Definition two_emitters_page : RPC :=
  node healthy (Got (WellFormed two_emitters)).

(** A request for event 5 of chain [chain]. *)
Definition request (chain : Z) : ObservationRequest :=
  {| ChainId := chain; ReqTxHash := Go.PutUint64 5 |}.

Definition replay_page (sequence_number : string) : RPC :=
  node healthy
    (Got (WellFormed
            (arr [event sequence_number
                    (event_data "1" "0x01" "1666000000" "0" "9" "0")]))).

(** An event whose payload is a JSON number, written [raw], that the
    library converts to [uint] and formats as [float_text]. *)
Definition number_payload (raw : string) (uint : Z) (float_text : string)
  : Value :=
  obj [ ("consistency_level", JString "0"); ("nonce", JString "0");
        ("payload", JNumber raw uint float_text); ("sender", JString "1");
        ("sequence", JString "3"); ("timestamp", JString "1666000000") ].

(** An event whose sender is the JSON literal [true]. *)
Definition sender_true : Value :=
  obj [ ("consistency_level", JString "0"); ("nonce", JString "0");
        ("payload", JString "0x01"); ("sender", JTrue);
        ("sequence", JString "3"); ("timestamp", JString "1666000000") ].

(** *** For the redeemers *)

Import Redeem.

(** [n] bytes, big-endian. *)
Fixpoint be (n : nat) (z : Z) : list byte :=
  match n with
  | O => []
  | S n' => be n' (z / 256) ++ [Go.byte_of_Z z]
  end.

Definition of_be (b : list byte) : Z :=
  fold_left (fun acc x => acc * 256 + Go.Z_of_byte x) b 0.

Definition hex_digit (z : Z) : ascii :=
  ascii_of_N (Z.to_N (if z <? 10 then 48 + z else 87 + z)).

Fixpoint hex (b : list byte) : string :=
  match b with
  | [] => ""
  | x :: rest =>
      String.String (hex_digit (Go.Z_of_byte x / 16))
        (String.String (hex_digit (Go.Z_of_byte x mod 16)) (hex rest))
  end.

Definition slice (from len : nat) (b : list byte) : list byte :=
  firstn len (skipn from b).

(** A token-bridge transfer: type 1, amount, token address and chain,
    recipient and its chain, fee. *)
Definition transfer (amount : Z) (token : list byte) (tokenChain : Z)
  (to : list byte) (toChain : Z) (fee : Z) : list byte :=
  [x01] ++ be 32 amount ++ token ++ be 2 tokenChain ++ to ++ be 2 toChain
    ++ be 32 fee.

(** A message with no signature: version, guardian set, signature
    count; then timestamp, nonce, emitter chain and address, sequence,
    consistency level; then the payload. *)
Definition vaa (body : list byte) : list byte :=
  [x01] ++ be 4 0 ++ [x00] ++ be 4 1666000000 ++ be 4 0 ++ be 2 2
    ++ be 32 3 ++ be 8 1 ++ [x01] ++ body.

Definition sample_parse_vaa (b : list byte) : option ParsedVAA :=
  match nth_error b 5 with
  | Some n =>
      let off := (6 + 66 * Z.to_nat (Go.Z_of_byte n) + 51)%nat in
      if (off <=? List.length b)%nat
      then Some {| payload := skipn off b |}
      else None
  | None => None
  end.

Definition sample_parseTransferPayload (b : list byte)
  : option TransferPayload :=
  if (133 <=? List.length b)%nat then
    Some {| amount := of_be (slice 1 32 b);
            originAddress := hex (slice 33 32 b);
            originChain := of_be (slice 65 2 b);
            targetAddress := hex (slice 67 32 b);
            targetChain := of_be (slice 99 2 b);
            fee := Some (of_be (slice 101 32 b)) |}
  else None.

Definition sample_parseVAAAlgorand (b : list byte) : option AlgorandVAA :=
  match sample_parse_vaa b with
  | Some v =>
      let b := payload v in
      if (133 <=? List.length b)%nat then
        Some {| ToChain := Some (of_be (slice 99 2 b));
                ToAddress := slice 67 32 b;
                FromChain := of_be (slice 65 2 b);
                Contract := hex (slice 33 32 b);
                Fee := Some (slice 101 32 b) |}
      else None
  | None => None
  end.

(** The SDK with the values of its constants; native addresses are kept
    in hex here, which the claims do not depend on. *)
Definition sdk : Sdk :=
  {| CHAIN_ID_NEAR := 15;
     CHAIN_ID_SOLANA := 1;
     MAX_VAA_DECIMALS := 8;
     WSOL_DECIMALS := 9;
     WSOL_ADDRESS := "So11111111111111111111111111111111111111112";
     TOKEN_PROGRAM_ID := "TokenkegQfeZyiNwAJbNbGKPFXCWuBvf9Ss623VQ5DA";
     AccountLayout_span := 165;
     parse_vaa := sample_parse_vaa;
     parseTransferPayload := sample_parseTransferPayload;
     _parseVAAAlgorand := sample_parseVAAAlgorand;
     hexToNativeString := fun h _ => Some h;
     uint8ArrayToHex := hex;
     fromUint8Array := hex;
     isPublicKey := fun s => negb (String.eqb s "") |}.

Definition connection : Connection :=
  {| getMinBalanceRentForExemptAccount := Some 2039280;
     getRecentBlockhash := Some "EETubP5AKHgjPAhzPAFcb8BAY1hMH639CWCFTqi3hq1k" |}.

Definition ancillary : Keypair :=
  {| publicKey := "9QU2QSxhb24FUX3Tu2FpczXjpK3VYrvRudywSZaM29mF";
     secretKey := be 64 7 |}.

(** 1.5 units of a token of chain 2 (Ethereum), sent to chain 2. *)
Definition to_ethereum : list byte :=
  vaa (transfer 150000000 (be 32 4660) 2 (be 32 48879) 2 0).

(** Wrapped SOL (token of chain 1) sent to chain 1. *)
Definition to_solana : list byte :=
  vaa (transfer 150000000 (be 32 4660) 1 (be 32 48879) 1 0).

(** A token of chain 2 sent to chain 15 (NEAR), with and without fee. *)
Definition to_near (fee : Z) : list byte :=
  vaa (transfer 150000000 (be 32 4660) 2 (be 32 48879) 15 fee).

(** A chain that knows which accounts paid the storage deposit of which
    token contract. *)
Definition Chain : Type := list (string * JsValue).

Definition JsValue_eqb (a b : JsValue) : bool :=
  match a, b with
  | JsString x, JsString y => String.eqb x y
  | _, _ => false
  end.

Definition registered (w : Chain) (token : string) (account : JsValue)
  : bool :=
  existsb (fun r => String.eqb (fst r) token && JsValue_eqb (snd r) account) w.

Definition near_view (w : Chain) (contractId methodName : string)
  (args : list (string * JsValue)) : option JsValue :=
  if String.eqb methodName "hash_lookup"
  then Some (JsArray [JsBool true; JsString "alice.near"])
  else match args with
       | [(_, account)] =>
           Some (if registered w contractId account
                 then JsObject [("total", JsString "1250000000000000000000")]
                 else JsNull)
       | _ => Some JsNull
       end.

Definition near_call (w : Chain) (c : FunctionCall)
  : option (FinalExecutionOutcome * Chain) :=
  if String.eqb (methodName c) "storage_deposit"
  then match args c with
       | (_, account) :: _ =>
           Some ({| lastResult := JsNull |}, (contractId c, account) :: w)
       | _ => Some ({| lastResult := JsNull |}, w)
       end
  else Some ({| lastResult := JsString "done" |}, w).

Definition relayer : Account Chain :=
  {| accountId := "relayer.near";
     viewFunction := near_view;
     functionCall := near_call;
     getForeignAssetNear := fun _ _ _ _ => Some "weth.near" |}.

(** The native asset (all-zero contract) of chain 15 sent to chain 15,
    with a fee. *)
Definition native_to_near : list byte :=
  vaa (transfer 150000000 (be 32 0) 15 (be 32 48879) 15 5).

(** The methods of the function calls among the operations, in order. *)
Definition called_methods (ops : list Op) : list string :=
  flat_map (fun op => match op with
                      | Call c => [methodName c]
                      | _ => []
                      end) ops.

End Sample.

(* ================================================================== *)
(** * Properties of the watcher *)
(* ================================================================== *)

Module WatcherSpec.
Import gjson Aptos.

(** ** [gjson] *)

Lemma uint64_range (z : Z) : 0 <= Go.uint64 z < 2 ^ 64.
Proof. unfold Go.uint64. apply Z.mod_pos_bound. lia. Qed.

Lemma parseUint_from_range (s : string) :
  forall n m, 0 <= n < 2 ^ 64 -> parseUint_from n s = Some m ->
              0 <= m < 2 ^ 64.
Proof.
  induction s as [|c s IH]; simpl; intros n m Hn H.
  - now inversion H; subst.
  - destruct (is_digit c); [|discriminate].
    eapply IH; [|exact H]. apply uint64_range.
Qed.

Lemma parseUint_range (s : string) (m : Z) :
  parseUint s = Some m -> 0 <= m < 2 ^ 64.
Proof.
  destruct s as [|c s]; [discriminate|].
  unfold parseUint. apply parseUint_from_range. lia.
Qed.

Lemma Uint_range (t : Result) : 0 <= Uint t < 2 ^ 64.
Proof.
  destruct t as [[| | |raw u ft|str|raw l|raw l]|]; simpl; try lia.
  - destruct (parseUint raw) as [n|] eqn:E; [|apply uint64_range].
    destruct (String.length raw <=? 15)%nat; [|apply uint64_range].
    eapply parseUint_range; eauto.
  - destruct (parseUint str) as [n|] eqn:E; [|lia].
    eapply parseUint_range; eauto.
Qed.

(** [float64] on both sides of [2^53]: exact below, and above rounded
    to the nearest multiple of the spacing, ties to even. *)
Example float64_examples :
  Go.float64 1000 = 1000 /\
  Go.float64 (2 ^ 53 + 1) = 2 ^ 53 /\
  Go.float64 (2 ^ 53 + 3) = 2 ^ 53 + 4 /\
  Go.float64 (2 ^ 64 - 1) = 2 ^ 64.
Proof. repeat split; vm_compute; reflexivity. Qed.

Lemma Get_missing (path : string) : Get None path = None.
Proof. reflexivity. Qed.

(** ** [observeData] *)

Ltac step_observe :=
  repeat match goal with
    | H : context [if ?b then _ else _] |- _ => destruct b eqn:?
    | H : context [match ?x with _ => _ end] |- _ => destruct x eqn:?
    end.

(** What a published message is made of: every field was there, the
    emitter passed its check, the payload could be sliced and decoded. *)
Lemma observeData_Published K data native_seq m :
  observeData K data native_seq = Published m ->
  Exists (Get data "sender") = true /\
  Exists (Get data "payload") = true /\
  Exists (Get data "timestamp") = true /\
  Exists (Get data "nonce") = true /\
  Exists (Get data "sequence") = true /\
  Exists (Get data "consistency_level") = true /\
  (String_ (Get data "sender") = "0" \/ Uint (Get data "sender") <> 0) /\
  TxHash m = hash_of_seq native_seq /\
  Sequence m = Uint (Get data "sequence") /\
  EmitterChain m = K /\
  EmitterAddress m = repeat x00 24 ++ Go.PutUint64 (Uint (Get data "sender")).
Proof.
  unfold observeData. cbv zeta. intros H.
  step_observe; try discriminate.
  inversion H; subst; clear H. cbn [TxHash Sequence EmitterChain EmitterAddress].
  repeat match goal with
         | H : negb _ = false |- _ => apply negb_false_iff in H
         end.
  repeat split; try assumption; try reflexivity.
  match goal with
  | H : _ && _ = false |- _ =>
      apply andb_false_iff in H; destruct H as [Hstr|Hnum]
  end.
  - left. apply negb_false_iff in Hstr. now apply String.eqb_eq.
  - right. now apply Z.eqb_neq.
Qed.

Lemma observeData_missing K native_seq : 
  observeData K None native_seq = Dropped "sender".
Proof. reflexivity. Qed.

(** No message is published for an event that lacks one of the six
    fields. *)
Lemma observeData_missing_field_not_published K data native_seq field :
  In field ["sender"; "payload"; "timestamp"; "nonce"; "sequence";
            "consistency_level"] ->
  Get data field = None ->
  forall m, observeData K data native_seq <> Published m.
Proof.
  intros Hin Hnone m Hpub.
  apply observeData_Published in Hpub.
  destruct Hpub as (H1 & H2 & H3 & H4 & H5 & H6 & _).
  simpl in Hin.
  repeat (destruct Hin as [<-|Hin];
          [rewrite Hnone in *; discriminate|]).
  exact Hin.
Qed.

(** An event whose payload can be sliced never makes the decoding
    panic. *)
Lemma observeData_no_panic K data native_seq :
  (2 <= String.length (String_ (Get data "payload")))%nat ->
  forall msg, observeData K data native_seq <> Panicked msg.
Proof.
  intros Hlen msg. unfold observeData, Go.slice_from. cbv zeta.
  apply Nat.leb_le in Hlen. rewrite Hlen.
  intros H. step_observe; discriminate.
Qed.

(** C3.  An event that carries all six fields but whose payload string
    has fewer than two characters makes [observeData] panic on
    [v.String()[2:]]; so does an event with a one-character payload and
    no timestamp, which should have been dropped; and the panic takes the
    whole watcher down during a poll. *)
Theorem short_payload_panics :
  observeData Sample.ChainIDAptos (Some Sample.short_payload) 7
    = Panicked "slice bounds out of range" /\
  Get (Some Sample.no_timestamp_short_payload) "timestamp" = None /\
  observeData Sample.ChainIDAptos
    (Some Sample.no_timestamp_short_payload) 7
    = Panicked "slice bounds out of range" /\
  snd (Run Sample.ChainIDAptos [Tick Sample.short_payload_page]
         (Sample.watcher 5, Sample.process))
    = Crashed "slice bounds out of range".
Proof. repeat split; vm_compute; reflexivity. Qed.

(** A payload that is a JSON number goes through [String()] too: the
    literal [1.0] is formatted as [1], which is too short to slice; the
    literal [1.50] is formatted as [1.5], whose rest is not hex; the
    integer literal [1234] is kept as written and gives the byte [34]. *)
Example number_payloads :
  observeData Sample.ChainIDAptos
    (Some (Sample.number_payload "1.0" 1 "1")) 5
    = Panicked "slice bounds out of range" /\
  observeData Sample.ChainIDAptos
    (Some (Sample.number_payload "1.50" 1 "1.5")) 5
    = Dropped "payload decode" /\
  (exists m,
     observeData Sample.ChainIDAptos
       (Some (Sample.number_payload "1234" 1234 "1234")) 5 = Published m /\
     Payload m = [x34]).
Proof.
  split; [|split]; try (vm_compute; reflexivity).
  eexists. split; vm_compute; reflexivity.
Qed.

(** Once the sender is there, the event is dropped at the emitter check
    exactly when the sender's text is not [0] and it reads as zero. *)
Lemma observeData_emitter K data native_seq :
  Exists (Get data "sender") = true ->
  observeData K data native_seq = Dropped "Invalid emitter" <->
  String_ (Get data "sender") <> "0" /\ Uint (Get data "sender") = 0.
Proof.
  intros Hs. unfold observeData. cbv zeta. rewrite Hs. cbn [negb].
  destruct (String.eqb_spec (String_ (Get data "sender")) "0") as [Es|Es];
    destruct (Z.eqb_spec (Uint (Get data "sender")) 0) as [Eu|Eu];
    cbn [negb andb].
  3: { split; [intros _; now split|reflexivity]. }
  all: split; [|intros [H1 H2]; contradiction].
  all: intros H; step_observe; discriminate.
Qed.

(** An event that passes the emitter check and whose other fields decode
    is published, as the [observation] built from its fields. *)
Lemma observeData_observation K data native_seq pl :
  Exists (Get data "sender") = true ->
  emitter_ok data ->
  fields_decode data pl ->
  observeData K data native_seq = Published (observation K data native_seq pl).
Proof.
  intros Hs Hok (Hp & (hx & Hx & Hd) & Ht & Hn & Hq & Hc).
  unfold observeData. cbv zeta. rewrite Hs. cbn [negb].
  replace (negb (String.eqb (String_ (Get data "sender")) "0")
           && (Uint (Get data "sender") =? 0)) with false.
  - rewrite Hp. cbn [negb]. rewrite Hx, Hd, Ht, Hn, Hq, Hc. reflexivity.
  - symmetry. apply andb_false_iff. destruct Hok as [Hok|Hok].
    + left. apply negb_false_iff. now apply String.eqb_eq.
    + right. now apply Z.eqb_neq.
Qed.

Lemma observation_EmitterAddress K data native_seq pl :
  EmitterAddress (observation K data native_seq pl)
  = repeat x00 24 ++ Go.PutUint64 (Uint (Get data "sender")).
Proof. reflexivity. Qed.

(** C9, as the code has it.  For an event with a sender, the watcher
    reads the sender both as text ([String()]) and as a number
    ([Uint()]).  The event is dropped at the emitter check exactly when
    the text is not [0] and the number is zero.  Otherwise, when the rest
    of the event decodes, a message is published whose emitter address is
    24 zero bytes followed by the number, big-endian, in 8 bytes.  For a
    sender that is a JSON string: [0] gives the all-zero address, [123]
    the address whose last byte is 123, any string of digits that reads
    as a non-zero [uint64] the encoding of that number; a string other
    than [0] that is not a run of digits ([abc]), or that reads as zero,
    is dropped.  The JSON literal [true] is not a number, yet it reads as
    1 and passes the check, giving the address of emitter 1. *)
Theorem emitter_parsing K data native_seq :
  Exists (Get data "sender") = true ->
  (observeData K data native_seq = Dropped "Invalid emitter" <->
   String_ (Get data "sender") <> "0" /\ Uint (Get data "sender") = 0) /\
  (forall pl,
     emitter_ok data -> fields_decode data pl ->
     observeData K data native_seq
       = Published (observation K data native_seq pl) /\
     EmitterAddress (observation K data native_seq pl)
       = repeat x00 24 ++ Go.PutUint64 (Uint (Get data "sender"))) /\
  (forall s,
     Get data "sender" = Some (JString s) ->
     (s = "0" ->
        emitter_ok data /\
        forall pl, EmitterAddress (observation K data native_seq pl)
                   = repeat x00 32) /\
     (s = "123" ->
        emitter_ok data /\
        forall pl, EmitterAddress (observation K data native_seq pl)
                   = repeat x00 31 ++ [x7b]) /\
     (forall n, parseUint s = Some n -> n <> 0 ->
        emitter_ok data /\
        forall pl, EmitterAddress (observation K data native_seq pl)
                   = repeat x00 24 ++ Go.PutUint64 n) /\
     (s <> "0" -> parseUint s = None ->
        observeData K data native_seq = Dropped "Invalid emitter") /\
     (s <> "0" -> parseUint s = Some 0 ->
        observeData K data native_seq = Dropped "Invalid emitter") /\
     (s = "abc" ->
        observeData K data native_seq = Dropped "Invalid emitter")) /\
  (Get data "sender" = Some JTrue ->
     emitter_ok data /\
     forall pl, EmitterAddress (observation K data native_seq pl)
                = repeat x00 31 ++ [x01]).
Proof.
  intros Hs. split; [now apply observeData_emitter|].
  split; [|split].
  - intros pl Hok Hf. split; [now apply observeData_observation|].
    apply observation_EmitterAddress.
  - intros s Hstr.
    assert (Hdrop : s <> "0" ->
              (parseUint s = None \/ parseUint s = Some 0) ->
              observeData K data native_seq = Dropped "Invalid emitter").
    { intros Hne Hn. apply observeData_emitter; [exact Hs|].
      rewrite Hstr. cbn [String_ Uint]. split; [exact Hne|].
      destruct Hn as [-> | ->]; reflexivity. }
    assert (Hpass : forall n, parseUint s = Some n -> s = "0" \/ n <> 0 ->
              emitter_ok data /\
              forall pl, EmitterAddress (observation K data native_seq pl)
                         = repeat x00 24 ++ Go.PutUint64 n).
    { intros n Hn Hok. split.
      - unfold emitter_ok. rewrite Hstr. cbn [String_ Uint]. rewrite Hn.
        exact Hok.
      - intros pl. rewrite observation_EmitterAddress, Hstr.
        cbn [Uint]. now rewrite Hn. }
    split; [|split; [|split; [|split; [|split]]]].
    + intros ->. apply (Hpass 0); [reflexivity|now left].
    + intros ->. apply (Hpass 123); [reflexivity|right; lia].
    + intros n Hn Hnz. apply Hpass; [assumption|now right].
    + intros Hne Hn. apply Hdrop; auto.
    + intros Hne Hn. apply Hdrop; auto.
    + intros ->. apply Hdrop; [discriminate|now left].
  - intros Htrue. split.
    + unfold emitter_ok. rewrite Htrue. right. cbn. lia.
    + intros pl. rewrite observation_EmitterAddress, Htrue. reflexivity.
Qed.

Lemma emitter_parsing_witness :
  observeData Sample.ChainIDAptos
    (Some (Sample.event_data "123" "0x0a0b" "1666000000" "7" "3" "1")) 5
  = Published
      (observation Sample.ChainIDAptos
         (Some (Sample.event_data "123" "0x0a0b" "1666000000" "7" "3" "1"))
         5 [x0a; x0b]) /\
  EmitterAddress
    (observation Sample.ChainIDAptos
       (Some (Sample.event_data "123" "0x0a0b" "1666000000" "7" "3" "1"))
       5 [x0a; x0b])
  = repeat x00 31 ++ [x7b].
Proof.
  refine (proj1 (proj2 (emitter_parsing Sample.ChainIDAptos
            (Some (Sample.event_data "123" "0x0a0b" "1666000000" "7" "3" "1"))
            5 eq_refl)) [x0a; x0b] _ _).
  - right. vm_compute. discriminate.
  - unfold fields_decode. repeat split; try reflexivity.
    exists "0a0b". split; reflexivity.
Defined.

(** C9, as stated, fails.  The sender of this event is the JSON literal
    [true]: its text is not a number and is not [0], and yet the event is
    not dropped: it is published with the address of emitter 1. *)
Lemma sender_true_is_published :
  Get (Some Sample.sender_true) "sender" = Some JTrue /\
  String_ (Get (Some Sample.sender_true) "sender") = "true" /\
  parseUint "true" = None /\
  exists m,
    observeData Sample.ChainIDAptos (Some Sample.sender_true) 5
      = Published m /\
    EmitterAddress m = repeat x00 31 ++ [x01].
Proof.
  repeat split; try reflexivity.
  eexists. split; vm_compute; reflexivity.
Qed.

(** The three identifiers of the specification, run through the whole
    decoding. *)
Example emitter_examples :
  (exists m,
     observeData Sample.ChainIDAptos
       (Some (Sample.event_data "0" "0x0a0b" "1666000000" "7" "3" "1")) 5
       = Published m /\ EmitterAddress m = repeat x00 32) /\
  (exists m,
     observeData Sample.ChainIDAptos
       (Some (Sample.event_data "123" "0x0a0b" "1666000000" "7" "3" "1")) 5
       = Published m /\ EmitterAddress m = repeat x00 31 ++ [x7b]) /\
  observeData Sample.ChainIDAptos
    (Some (Sample.event_data "abc" "0x0a0b" "1666000000" "7" "3" "1")) 5
    = Dropped "Invalid emitter".
Proof.
  split; [|split].
  - eexists. split; vm_compute; reflexivity.
  - eexists. split; vm_compute; reflexivity.
  - vm_compute; reflexivity.
Qed.

(** ** The request case *)

(** What the loop over the answer to a request does: it only appends to
    [msgChan], and only messages decoded, with the requested sequence
    number, from an entry that carries that sequence number. *)
Lemma obsvReq_range_spec K S chunks :
  forall st, exists new,
    msgChan (fst (fst (obsvReq_range K S chunks st)))
      = msgChan (fst st) ++ new /\
    next_sequence (fst (fst (obsvReq_range K S chunks st)))
      = next_sequence (fst st) /\
    requests (snd (fst (obsvReq_range K S chunks st))) = requests (snd st) /\
    Forall (fun m => exists chunk,
                In chunk chunks /\ chunk_seq chunk = S /\
                observeData K (Get chunk "data") S = Published m) new /\
    (List.length new <= List.length chunks)%nat /\
    (forall c rest, chunks = c :: rest -> chunk_seq c <> S -> new = []).
Proof.
  induction chunks as [|chunk rest IH]; intros st.
  - exists []. cbn. rewrite app_nil_r. repeat split; auto; discriminate.
  - cbn [obsvReq_range].
    assert (Hstop : exists new : list MessagePublication,
               msgChan (fst st) = msgChan (fst st) ++ new /\
               next_sequence (fst st) = next_sequence (fst st) /\
               requests (snd st) = requests (snd st) /\
               Forall (fun m => exists chunk0,
                 In chunk0 (chunk :: rest) /\ chunk_seq chunk0 = S /\
                 observeData K (Get chunk0 "data") S = Published m) new /\
               (List.length new <= List.length (chunk :: rest))%nat /\
               (forall c rest0, chunk :: rest = c :: rest0 ->
                                chunk_seq c <> S -> new = [])).
    { exists []. rewrite app_nil_r. cbn. repeat split; auto; lia. }
    destruct (Exists (Get chunk "sequence_number")); cbn [negb]; [|exact Hstop].
    destruct (Uint (Get chunk "sequence_number") =? S) eqn:Eseq;
      cbn [negb]; [|exact Hstop].
    apply Z.eqb_eq in Eseq.
    destruct (Exists (Get chunk "data")); cbn [negb]; [|exact Hstop].
    destruct (observeData K (Get chunk "data") S) as [log|m|msg] eqn:Eobs.
    + destruct (IH st) as (new & H1 & H2 & H3 & H4 & H5 & H6).
      exists new. repeat split; auto.
      * eapply Forall_impl; [|exact H4]. intros m (c & Hc & Hs & Ho).
        exists c. repeat split; auto. now right.
      * cbn. lia.
      * intros c rest0 E Hc. inversion E; subst. now elim Hc.
    + destruct (IH (publish m st)) as (new & H1 & H2 & H3 & H4 & H5 & H6).
      exists (m :: new). repeat split.
      * rewrite H1. cbn. now rewrite <- app_assoc.
      * rewrite H2. reflexivity.
      * rewrite H3. reflexivity.
      * constructor.
        -- exists chunk. repeat split; auto. now left.
        -- eapply Forall_impl; [|exact H4]. intros m' (c & Hc & Hs & Ho).
           exists c. repeat split; auto. now right.
      * cbn. lia.
      * intros c rest0 E Hc. inversion E; subst. now elim Hc.
    + exact Hstop.
Qed.

(** What a request that passes the chain check and carries a hash of at
    least eight bytes does to the log of queries: one query is added. *)
Lemma Run_obsvReq_query K rpc r st S :
  Go.uint16 (ChainId r) = K ->
  Go.Uint64 (ReqTxHash r) = Some S ->
  exists new,
    requests (snd (fst (Run_obsvReq K rpc r st)))
      = requests (snd st) ++ [obsvReq_query (fst st) S] /\
    next_sequence (fst (fst (Run_obsvReq K rpc r st)))
      = next_sequence (fst st) /\
    msgChan (fst (fst (Run_obsvReq K rpc r st))) = msgChan (fst st) ++ new /\
    Forall (fun m => TxHash m = hash_of_seq S) new.
Proof.
  intros Hchain Hseq. unfold Run_obsvReq.
  apply Z.eqb_eq in Hchain. rewrite Hchain, Hseq. cbn [negb].
  unfold retrievePayload. cbv zeta.
  destruct (rpc (obsvReq_query (fst st) S)) as [err|[text|doc]] eqn:Erpc.
  1,2: exists []; cbn; rewrite app_nil_r; repeat split; auto.
  destruct (obsvReq_range_spec K S (Array (Some doc))
              (fst st, http_Get (obsvReq_query (fst st) S) (snd st)))
    as (new & H1 & H2 & H3 & H4 & _).
  exists new. repeat split.
  - rewrite H3. reflexivity.
  - exact H2.
  - exact H1.
  - eapply Forall_impl; [|exact H4]. intros m (c & _ & _ & Ho).
    now apply observeData_Published in Ho.
Qed.

(** C10, as the code has it.  The chain id of a request, a [uint32], is
    compared after its conversion to the 16-bit [vaa.ChainID].  The
    request makes the goroutine panic with [invalid chain ID], before
    anything is fetched, logged or counted, exactly when the converted id
    is not that of Aptos; the panic ends the loop.  A request whose
    converted id is that of Aptos is served: its query goes out.  For a
    chain id below [2^16] the converted id is the id itself. *)
Theorem chain_id_check K rpc r st rest :
  (Run_obsvReq K rpc r st = (st, Panic "invalid chain ID") <->
   Go.uint16 (ChainId r) <> K) /\
  (Go.uint16 (ChainId r) <> K ->
   Run_loop K (ObsvReq r rpc :: rest) st = (st, Crashed "invalid chain ID")) /\
  (Go.uint16 (ChainId r) = K ->
   forall S, Go.Uint64 (ReqTxHash r) = Some S ->
     requests (snd (fst (Run_obsvReq K rpc r st)))
       = requests (snd st) ++ [obsvReq_query (fst st) S]) /\
  (0 <= ChainId r < 2 ^ 16 ->
   (Go.uint16 (ChainId r) <> K <-> ChainId r <> K)).
Proof.
  assert (E : Go.uint16 (ChainId r) <> K ->
              Run_obsvReq K rpc r st = (st, Panic "invalid chain ID")).
  { intros Hne. unfold Run_obsvReq. apply Z.eqb_neq in Hne. now rewrite Hne. }
  split; [|split; [|split]].
  - split; [|exact E].
    intros H Heq.
    destruct (Go.Uint64 (ReqTxHash r)) as [S|] eqn:Eh.
    + destruct (Run_obsvReq_query K rpc r st S Heq Eh) as (new & Hq & _).
      rewrite H in Hq. cbn [fst snd] in Hq.
      apply (f_equal (@List.length string)) in Hq.
      rewrite length_app in Hq. cbn in Hq. lia.
    + unfold Run_obsvReq in H. apply Z.eqb_eq in Heq.
      rewrite Heq, Eh in H. discriminate.
  - intros Hne. cbn [Run_loop Run_select]. now rewrite (E Hne).
  - intros Heq S Eh.
    destruct (Run_obsvReq_query K rpc r st S Heq Eh) as (new & Hq & _).
    exact Hq.
  - intros Hr. unfold Go.uint16. now rewrite Z.mod_small.
Qed.

Lemma chain_id_check_witness :
  Go.uint16 (ChainId (Sample.request 2)) <> Sample.ChainIDAptos /\
  Run_loop Sample.ChainIDAptos
    [ObsvReq (Sample.request 2) (Sample.replay_page "5");
     Tick Sample.two_emitters_page]
    (Sample.watcher 5, Sample.process)
    = ((Sample.watcher 5, Sample.process), Crashed "invalid chain ID").
Proof.
  assert (H : Go.uint16 (ChainId (Sample.request 2)) <> Sample.ChainIDAptos)
    by (vm_compute; discriminate).
  split; [exact H|].
  exact (proj1 (proj2 (chain_id_check Sample.ChainIDAptos
                         (Sample.replay_page "5") (Sample.request 2)
                         (Sample.watcher 5, Sample.process)
                         [Tick Sample.two_emitters_page])) H).
Defined.

(** C10, as stated, fails.  The chain id 65558 is not that of Aptos
    (22), but its 16 low bits are: the request is served like one for
    chain 22, a message is sent, and the loop goes on. *)
Lemma truncated_chain_id_is_served :
  ChainId (Sample.request 65558) <> Sample.ChainIDAptos /\
  snd (Run_obsvReq Sample.ChainIDAptos (Sample.replay_page "5")
         (Sample.request 65558) (Sample.watcher 9, Sample.process))
    = Continue /\
  List.length
    (msgChan (fst (fst (Run_obsvReq Sample.ChainIDAptos
                          (Sample.replay_page "5") (Sample.request 65558)
                          (Sample.watcher 9, Sample.process))))) = 1%nat /\
  snd (Run_loop Sample.ChainIDAptos
         [ObsvReq (Sample.request 65558) (Sample.replay_page "5")]
         (Sample.watcher 9, Sample.process)) = Blocked.
Proof.
  split; [vm_compute; discriminate|].
  repeat split; vm_compute; reflexivity.
Qed.

Lemma publish_all_app ms ms' st :
  publish_all (ms ++ ms') st = publish_all ms' (publish_all ms st).
Proof. unfold publish_all. apply fold_left_app. Qed.

(** The loop over the answer to a request, exactly: it goes through the
    leading entries that answer the request and decode without a panic,
    sending a message for each one that decodes, and stops at the first
    entry that does not answer, or that makes the decoding panic. *)
Lemma obsvReq_range_exact K S page :
  forall st, exists taken rest,
    page = taken ++ rest /\
    Forall (answers S) taken /\
    Forall (decodes_without_panic K) taken /\
    fst (obsvReq_range K S page st)
      = publish_all (flat_map (decoded K) taken) st /\
    match rest with
    | [] => snd (obsvReq_range K S page st) = Continue
    | c :: _ =>
        (~ answers S c /\ snd (obsvReq_range K S page st) = Continue) \/
        (answers S c /\
         exists msg,
           observeData K (Get c "data") S = Panicked msg /\
           snd (obsvReq_range K S page st) = Panic msg)
    end.
Proof.
  induction page as [|chunk page IH]; intros st.
  - exists [], []. cbn. repeat split; constructor.
  - cbn [obsvReq_range].
    destruct (Exists (Get chunk "sequence_number")) eqn:E1; cbn [negb].
    2: { exists [], (chunk :: page). cbn.
         split; [reflexivity|]. split; [constructor|].
         split; [constructor|]. split; [reflexivity|].
         left. split; [|reflexivity].
         intros (H & _). unfold has_seq in H. congruence. }
    destruct (Uint (Get chunk "sequence_number") =? S) eqn:E2; cbn [negb].
    2: { exists [], (chunk :: page). cbn.
         split; [reflexivity|]. split; [constructor|].
         split; [constructor|]. split; [reflexivity|].
         left. split; [|reflexivity].
         intros (_ & H & _). unfold chunk_seq in H.
         apply Z.eqb_neq in E2. contradiction. }
    apply Z.eqb_eq in E2.
    destruct (Exists (Get chunk "data")) eqn:E3; cbn [negb].
    2: { exists [], (chunk :: page). cbn.
         split; [reflexivity|]. split; [constructor|].
         split; [constructor|]. split; [reflexivity|].
         left. split; [|reflexivity].
         intros (_ & _ & H). congruence. }
    assert (Ha : answers S chunk) by (repeat split; assumption).
    destruct (observeData K (Get chunk "data") S) as [log|m|msg] eqn:Eobs.
    + destruct (IH st) as (taken & rest & Hp & Hans & Hnp & Hst & Hrest).
      exists (chunk :: taken), rest. repeat split.
      * cbn. now rewrite Hp.
      * now constructor.
      * constructor; [|exact Hnp]. intros msg.
        unfold chunk_seq. rewrite E2, Eobs. discriminate.
      * cbn [flat_map]. unfold decoded at 1, chunk_seq at 1.
        rewrite E2, Eobs. exact Hst.
      * exact Hrest.
    + destruct (IH (publish m st))
        as (taken & rest & Hp & Hans & Hnp & Hst & Hrest).
      exists (chunk :: taken), rest. repeat split.
      * cbn. now rewrite Hp.
      * now constructor.
      * constructor; [|exact Hnp]. intros msg.
        unfold chunk_seq. rewrite E2, Eobs. discriminate.
      * cbn [flat_map]. unfold decoded at 1, chunk_seq at 1.
        rewrite E2, Eobs. exact Hst.
      * exact Hrest.
    + exists [], (chunk :: page). cbn.
      split; [reflexivity|]. split; [constructor|].
      split; [constructor|]. split; [reflexivity|].
      right. split; [exact Ha|]. exists msg. split; [exact Eobs|reflexivity].
Qed.

(** C5, as the code has it.  A request for sequence number [S] (the
    first eight bytes of its hash, big-endian) makes exactly one query,
    for one event from [S] on, and no second one; the cursor is left
    alone; every message sent carries the hash derived from [S].  A
    transport failure is counted and ends [Run]; an answer that is not
    JSON is counted and the loop goes on.  On a JSON answer the watcher
    goes through the leading entries whose sequence number is [S] and
    that have data, sends one message for each of them that decodes, and
    stops at the first entry that is not such.  So nothing is sent for an
    empty answer or when the first entry carries another sequence number;
    and for an answer of one entry that carries [S], exactly one message
    is sent if the entry decodes and none if it is dropped.  The message
    has the hash derived from [S]; its [Sequence] field is the [sequence]
    member of the event's data. *)
Theorem replay_request K rpc r st S :
  Go.uint16 (ChainId r) = K ->
  Go.Uint64 (ReqTxHash r) = Some S ->
  obsvReq_query (fst st) S
    = (aptosQuery (fst st) ++ "?start=" ++ Go.itoa S ++ "&limit=1")%string /\
  requests (snd (fst (Run_obsvReq K rpc r st)))
    = requests (snd st) ++ [obsvReq_query (fst st) S] /\
  next_sequence (fst (fst (Run_obsvReq K rpc r st)))
    = next_sequence (fst st) /\
  (exists new,
     msgChan (fst (fst (Run_obsvReq K rpc r st))) = msgChan (fst st) ++ new /\
     Forall (fun m => TxHash m = hash_of_seq S) new) /\
  (forall err,
     rpc (obsvReq_query (fst st) S) = Failed err ->
     Run_obsvReq K rpc r st
       = ((fst st, AddErrorCount 1 (snd (asked S st))), Fatal err)) /\
  (forall text,
     rpc (obsvReq_query (fst st) S) = Got (Malformed text) ->
     Run_obsvReq K rpc r st
       = ((fst st, AddErrorCount 1 (snd (asked S st))), Continue)) /\
  (forall doc,
     rpc (obsvReq_query (fst st) S) = Got (WellFormed doc) ->
     (exists taken rest,
        Array (Some doc) = taken ++ rest /\
        Forall (answers S) taken /\
        Forall (decodes_without_panic K) taken /\
        fst (Run_obsvReq K rpc r st)
          = publish_all (flat_map (decoded K) taken) (asked S st) /\
        match rest with
        | [] => snd (Run_obsvReq K rpc r st) = Continue
        | c :: _ =>
            (~ answers S c /\ snd (Run_obsvReq K rpc r st) = Continue) \/
            (answers S c /\
             exists msg,
               observeData K (Get c "data") S = Panicked msg /\
               snd (Run_obsvReq K rpc r st) = Panic msg)
        end) /\
     (Array (Some doc) = [] ->
        Run_obsvReq K rpc r st = (asked S st, Continue)) /\
     (forall chunk rest,
        Array (Some doc) = chunk :: rest -> ~ answers S chunk ->
        Run_obsvReq K rpc r st = (asked S st, Continue)) /\
     (forall chunk,
        Array (Some doc) = [chunk] -> answers S chunk ->
        match observeData K (Get chunk "data") S with
        | Published m =>
            Run_obsvReq K rpc r st = (publish m (asked S st), Continue) /\
            msgChan (fst (publish m (asked S st))) = msgChan (fst st) ++ [m] /\
            TxHash m = hash_of_seq S /\
            Sequence m = Uint (Get (Get chunk "data") "sequence")
        | Dropped _ => Run_obsvReq K rpc r st = (asked S st, Continue)
        | Panicked msg => Run_obsvReq K rpc r st = (asked S st, Panic msg)
        end)).
Proof.
  intros Hchain Hseq.
  destruct (Run_obsvReq_query K rpc r st S Hchain Hseq)
    as (new & Hq & Hn & Hm & Hh).
  split; [reflexivity|]. split; [exact Hq|]. split; [exact Hn|].
  split; [exists new; now split|].
  assert (Hrun : Run_obsvReq K rpc r st
                 = match rpc (obsvReq_query (fst st) S) with
                   | Failed err =>
                       ((fst st, AddErrorCount 1 (snd (asked S st))),
                        Fatal err)
                   | Got (Malformed _) =>
                       ((fst st, AddErrorCount 1 (snd (asked S st))),
                        Continue)
                   | Got (WellFormed doc) =>
                       obsvReq_range K S (Array (Some doc)) (asked S st)
                   end).
  { unfold Run_obsvReq. apply Z.eqb_eq in Hchain. rewrite Hchain, Hseq.
    cbn [negb]. unfold retrievePayload, asked. cbv zeta.
    destruct (rpc (obsvReq_query (fst st) S)) as [err|[text|doc]];
      reflexivity. }
  split; [|split].
  - intros err E. rewrite Hrun, E. reflexivity.
  - intros text E. rewrite Hrun, E. reflexivity.
  - intros doc E. rewrite Hrun, E. clear Hrun.
    split; [apply obsvReq_range_exact|]. split; [|split].
    + intros ->. reflexivity.
    + intros chunk rest -> Hna. cbn [obsvReq_range].
      destruct (Exists (Get chunk "sequence_number")) eqn:E1; cbn [negb];
        [|reflexivity].
      destruct (Uint (Get chunk "sequence_number") =? S) eqn:E2; cbn [negb];
        [|reflexivity].
      destruct (Exists (Get chunk "data")) eqn:E3; cbn [negb];
        [|reflexivity].
      elim Hna. apply Z.eqb_eq in E2. repeat split; assumption.
    + intros chunk -> (H1 & H2 & H3). cbn [obsvReq_range].
      unfold has_seq in H1. unfold chunk_seq in H2.
      rewrite H1, H2, Z.eqb_refl, H3. cbn [negb].
      destruct (observeData K (Get chunk "data") S) as [log|m|msg] eqn:Eobs;
        try reflexivity.
      split; [reflexivity|]. split; [reflexivity|].
      apply observeData_Published in Eobs.
      destruct Eobs as (_ & _ & _ & _ & _ & _ & _ & Hx & Hy & _).
      now split.
Qed.

Lemma replay_request_witness :
  exists m,
    Run_obsvReq Sample.ChainIDAptos (Sample.replay_page "5")
      (Sample.request 22) (Sample.watcher 9, Sample.process)
    = (publish m (asked 5 (Sample.watcher 9, Sample.process)), Continue) /\
    msgChan (fst (publish m (asked 5 (Sample.watcher 9, Sample.process))))
      = [m] /\
    TxHash m = hash_of_seq 5.
Proof.
  pose proof (replay_request Sample.ChainIDAptos (Sample.replay_page "5")
                (Sample.request 22) (Sample.watcher 9, Sample.process) 5
                eq_refl eq_refl) as (_ & _ & _ & _ & _ & _ & Hdoc).
  destruct (Hdoc _ eq_refl) as (_ & _ & _ & Hone).
  specialize (Hone _ eq_refl).
  assert (Ha : answers 5
                 (Some (Sample.event "5"
                          (Sample.event_data "1" "0x01" "1666000000" "0"
                             "9" "0"))))
    by (repeat split; reflexivity).
  specialize (Hone Ha).
  destruct (observeData Sample.ChainIDAptos
              (Get (Some (Sample.event "5"
                            (Sample.event_data "1" "0x01" "1666000000" "0"
                               "9" "0"))) "data") 5)
    as [log|m|msg] eqn:Eobs; [discriminate Eobs| |discriminate Eobs].
  exists m. destruct Hone as (H1 & H2 & H3 & _).
  split; [exact H1|]. split; [exact H2|exact H3].
Defined.

(** C5, as stated, fails.  Event 5 of the handle is message 9 of its
    emitter.  A request for sequence number 5 is answered with that
    event: the one message sent has the hash derived from 5 and the
    [Sequence] 9. *)
Lemma replay_sequence_is_the_emitters :
  Go.Uint64 (ReqTxHash (Sample.request 22)) = Some 5 /\
  map Sequence
    (msgChan (fst (fst (Run_obsvReq Sample.ChainIDAptos
                          (Sample.replay_page "5") (Sample.request 22)
                          (Sample.watcher 9, Sample.process))))) = [9] /\
  map TxHash
    (msgChan (fst (fst (Run_obsvReq Sample.ChainIDAptos
                          (Sample.replay_page "5") (Sample.request 22)
                          (Sample.watcher 9, Sample.process)))))
    = [hash_of_seq 5].
Proof. repeat split; vm_compute; reflexivity. Qed.

(** The two outcomes of a replay on concrete answers: the requested event
    is sent once; an event with another sequence number is not. *)
Example replay_examples :
  List.length (msgChan (fst (fst (Run_obsvReq Sample.ChainIDAptos
                  (Sample.replay_page "5") (Sample.request 22)
                  (Sample.watcher 9, Sample.process))))) = 1%nat /\
  msgChan (fst (fst (Run_obsvReq Sample.ChainIDAptos
                  (Sample.replay_page "6") (Sample.request 22)
                  (Sample.watcher 9, Sample.process)))) = [].
Proof. split; vm_compute; reflexivity. Qed.

(** ** The timer case *)

(** C1, as the code has it.  Once the event query of a tick has been
    answered and its page processed, a failure of the health query adds
    one to the error count either way; a health answer that is not valid
    JSON lets the loop go on to the next event, while a transport error
    of the health query is sent on [errC] and [Run] returns it. *)
Theorem health_failure K rpc st doc st2 rest :
  rpc (timer_query (fst st)) = Got (WellFormed doc) ->
  timer_range K (Array (Some doc))
    (fst st, http_Get (timer_query (fst st)) (snd st)) = (st2, Continue) ->
  errorCount (AddErrorCount 1 (http_Get (aptosHealth (fst st2)) (snd st2)))
    = errorCount (snd st2) + 1 /\
  (forall text, rpc (aptosHealth (fst st2)) = Got (Malformed text) ->
     Run_timer K rpc st
       = ((fst st2,
           AddErrorCount 1 (http_Get (aptosHealth (fst st2)) (snd st2))),
          Continue) /\
     Run_loop K (Tick rpc :: rest) st
       = Run_loop K rest
           (fst st2,
            AddErrorCount 1 (http_Get (aptosHealth (fst st2)) (snd st2)))) /\
  (forall err, rpc (aptosHealth (fst st2)) = Failed err ->
     Run_timer K rpc st
       = ((fst st2,
           AddErrorCount 1 (http_Get (aptosHealth (fst st2)) (snd st2))),
          Fatal err) /\
     Run_loop K (Tick rpc :: rest) st
       = ((fst st2,
           AddErrorCount 1 (http_Get (aptosHealth (fst st2)) (snd st2))),
          Returned err)).
Proof.
  intros Hpoll Hrange.
  assert (Htimer : Run_timer K rpc st = Run_health rpc st2).
  { unfold Run_timer, retrievePayload. cbv zeta. rewrite Hpoll.
    cbn [body_is_empty fst snd]. now rewrite Hrange. }
  split; [reflexivity|]. split.
  - intros text Hh.
    assert (E : Run_timer K rpc st
                = ((fst st2,
                    AddErrorCount 1
                      (http_Get (aptosHealth (fst st2)) (snd st2))),
                   Continue)).
    { rewrite Htimer. unfold Run_health, retrievePayload. now rewrite Hh. }
    split; [exact E|]. cbn [Run_loop Run_select]. now rewrite E.
  - intros err Hh.
    assert (E : Run_timer K rpc st
                = ((fst st2,
                    AddErrorCount 1
                      (http_Get (aptosHealth (fst st2)) (snd st2))),
                   Fatal err)).
    { rewrite Htimer. unfold Run_health, retrievePayload. now rewrite Hh. }
    split; [exact E|]. cbn [Run_loop Run_select]. now rewrite E.
Qed.

Lemma health_failure_witness :
  snd (Run_timer Sample.ChainIDAptos Sample.health_garbled
         (Sample.watcher 5, Sample.process)) = Continue /\
  snd (Run_loop Sample.ChainIDAptos [Tick Sample.health_down]
         (Sample.watcher 5, Sample.process)) = Returned "EOF".
Proof.
  split.
  - pose proof
      (health_failure Sample.ChainIDAptos Sample.health_garbled
         (Sample.watcher 5, Sample.process) (arr [])
         (Sample.watcher 5,
          http_Get (timer_query (Sample.watcher 5)) Sample.process)
         [] eq_refl eq_refl) as (_ & Hbad & _).
    destruct (Hbad "<html>502</html>" eq_refl) as [E _].
    rewrite E. reflexivity.
  - pose proof
      (health_failure Sample.ChainIDAptos Sample.health_down
         (Sample.watcher 5, Sample.process) (arr [])
         (Sample.watcher 5,
          http_Get (timer_query (Sample.watcher 5)) Sample.process)
         [] eq_refl eq_refl) as (_ & _ & Hdown).
    destruct (Hdown "EOF" eq_refl) as [_ E].
    rewrite E. reflexivity.
Defined.

(** C1, as stated, fails: the event query is answered (an empty page),
    the health query fails in transport, the error is counted once, and
    [Run] returns that error. *)
Lemma health_transport_error_is_fatal :
  Sample.health_down (timer_query (Sample.watcher 5))
    = Got (WellFormed (arr [])) /\
  Sample.health_down (aptosHealth (Sample.watcher 5)) = Failed "EOF" /\
  errorCount (snd (fst (Run_loop Sample.ChainIDAptos
                          [Tick Sample.health_down]
                          (Sample.watcher 5, Sample.process)))) = 1 /\
  snd (Run_loop Sample.ChainIDAptos [Tick Sample.health_down]
         (Sample.watcher 5, Sample.process)) = Returned "EOF".
Proof. repeat split; vm_compute; reflexivity. Qed.

Lemma Exists_false (t : Result) : Exists t = false -> t = None.
Proof. destruct t; [discriminate|reflexivity]. Qed.

Lemma next_after_sorted (n : Z) (rest : list Result) :
  0 <= n ->
  Forall (Z.lt n) (map chunk_seq rest) ->
  rest <> [] -> Go.uint64 (n + 1) <> 0.
Proof.
  intros Hn Hlt Hrest. destruct rest as [|c rest]; [now elim Hrest|].
  inversion Hlt as [|x l Hx _]; subst.
  pose proof (Uint_range (Get c "sequence_number")) as Hr.
  unfold chunk_seq in Hx. unfold Go.uint64.
  rewrite Z.mod_small; lia.
Qed.

(** The loop of the timer case on a warm cursor and an ascending page in
    which every entry carries a sequence number and none makes the
    decoding panic. *)
Lemma timer_range_warm K page :
  forall st,
    (page <> [] -> next_sequence (fst st) <> 0) ->
    Forall has_seq page ->
    StronglySorted Z.lt (map chunk_seq page) ->
    Forall (decodes_without_panic K) page ->
    exists st2,
      timer_range K page st = (st2, Continue) /\
      msgChan (fst st2) = msgChan (fst st) ++ flat_map (decoded K) page /\
      next_sequence (fst st2)
        = match page with
          | [] => next_sequence (fst st)
          | _ => Go.uint64 (last (map chunk_seq page) 0 + 1)
          end /\
      aptosHealth (fst st2) = aptosHealth (fst st) /\
      requests (snd st2) = requests (snd st) /\
      errorCount (snd st2) = errorCount (snd st).
Proof.
  induction page as [|chunk rest IH]; intros st Hwarm Hseq Hsorted Hpanic.
  - exists st. cbn. rewrite app_nil_r. repeat split; reflexivity.
  - inversion Hseq as [|? ? Hc Hseq']; subst.
    inversion Hpanic as [|? ? Hp Hpanic']; subst.
    cbn [map] in Hsorted.
    inversion Hsorted as [|? ? Hsorted' Hlt]; subst.
    cbn [timer_range]. unfold has_seq in Hc. rewrite Hc. cbn [negb].
    assert (Hnz : (next_sequence (fst st) =? 0) = false)
      by (apply Z.eqb_neq; apply Hwarm; discriminate).
    rewrite Hnz.
    pose proof (Uint_range (Get chunk "sequence_number")) as Hr.
    assert (Hnext : rest <> [] ->
              Go.uint64 (Uint (Get chunk "sequence_number") + 1) <> 0)
      by (apply next_after_sorted; [lia|exact Hlt]).
    assert (Hlast :
              match rest with
              | [] => Go.uint64 (Uint (Get chunk "sequence_number") + 1)
              | _ => Go.uint64 (last (map chunk_seq rest) 0 + 1)
              end
              = Go.uint64 (last (map chunk_seq (chunk :: rest)) 0 + 1))
      by (destruct rest; reflexivity).
    set (st1 := (set_next_sequence
                   (Go.uint64 (Uint (Get chunk "sequence_number") + 1))
                   (fst st), snd st)).
    assert (Hskip : decoded K chunk = [] ->
              exists st2,
                timer_range K rest st1 = (st2, Continue) /\
                msgChan (fst st2)
                  = msgChan (fst st) ++ flat_map (decoded K) (chunk :: rest) /\
                next_sequence (fst st2)
                  = Go.uint64 (last (map chunk_seq (chunk :: rest)) 0 + 1) /\
                aptosHealth (fst st2) = aptosHealth (fst st) /\
                requests (snd st2) = requests (snd st) /\
                errorCount (snd st2) = errorCount (snd st)).
    { intros Hd.
      destruct (IH st1 Hnext Hseq' Hsorted' Hpanic')
        as (st2 & E & Hm & Hn & Hh & Hq & He).
      exists st2. cbn [flat_map]. rewrite Hd. cbn [app].
      repeat split; auto. rewrite Hn, <- Hlast. now destruct rest. }
    destruct (Exists (Get chunk "data")) eqn:Ed; cbn [negb].
    + destruct (observeData K (Get chunk "data")
                  (Uint (Get chunk "sequence_number")))
        as [log|m|msg] eqn:Eobs.
      * apply Hskip. unfold decoded, chunk_seq. now rewrite Eobs.
      * destruct (IH (publish m st1) Hnext Hseq' Hsorted' Hpanic')
          as (st2 & E & Hm & Hn & Hh & Hq & He).
        exists st2. cbn [flat_map]. unfold decoded at 1, chunk_seq at 1.
        rewrite Eobs. repeat split; auto.
        -- rewrite Hm. cbn. now rewrite <- app_assoc.
        -- rewrite Hn, <- Hlast. now destruct rest.
      * now elim (Hp msg).
    + apply Hskip. unfold decoded.
      now rewrite (Exists_false _ Ed).
Qed.

Lemma sorted_last_max (l : list Z) :
  StronglySorted Z.lt l -> forall n, In n l -> n <= last l 0.
Proof.
  induction 1 as [|a l Hs IH Hlt]; intros n Hin; [now elim Hin|].
  destruct l as [|b l].
  - destruct Hin as [->|[]]. cbn. lia.
  - change (last (a :: b :: l) 0) with (last (b :: l) 0).
    destruct Hin as [->|Hin]; [|now apply IH].
    inversion Hlt as [|? ? Hab _]; subst.
    specialize (IH b (or_introl eq_refl)). lia.
Qed.

Lemma last_In (l : list Z) : l <> [] -> In (last l 0) l.
Proof.
  induction l as [|a l IH]; intros Hne; [now elim Hne|].
  destruct l as [|b l]; [now left|].
  right. apply IH. discriminate.
Qed.

(** The sequence numbers of the entries that decode, in page order. *)
Lemma decoded_seqs_sorted K (page : list Result) :
  StronglySorted Z.lt (map chunk_seq page) ->
  StronglySorted Z.lt
    (flat_map (fun c => map (fun _ => chunk_seq c) (decoded K c)) page).
Proof.
  induction page as [|c page IH]; intros Hs; [constructor|].
  cbn [map] in Hs. inversion Hs as [|? ? Hs' Hlt]; subst.
  cbn [flat_map]. unfold decoded at 1.
  destruct (observeData K (Get c "data") (chunk_seq c)); cbn [map app];
    try (now apply IH).
  constructor; [now apply IH|].
  rewrite Forall_forall in *. intros n Hn.
  apply Hlt. apply in_flat_map in Hn. destruct Hn as (c' & Hc' & Hn).
  apply in_map_iff in Hn. destruct Hn as (m' & <- & _).
  now apply in_map.
Qed.

Lemma decoded_hashes K (page : list Result) :
  map TxHash (flat_map (decoded K) page)
  = map hash_of_seq
      (flat_map (fun c => map (fun _ => chunk_seq c) (decoded K c)) page).
Proof.
  induction page as [|c page IH]; [reflexivity|].
  cbn [flat_map]. rewrite !map_app, IH. f_equal.
  unfold decoded.
  destruct (observeData K (Get c "data") (chunk_seq c)) eqn:E; try reflexivity.
  apply observeData_Published in E. cbn.
  now replace (TxHash m) with (hash_of_seq (chunk_seq c)) by (symmetry; apply E).
Qed.

Lemma decoded_iff K chunk m :
  In m (decoded K chunk) <->
  observeData K (Get chunk "data") (chunk_seq chunk) = Published m.
Proof.
  unfold decoded.
  destruct (observeData K (Get chunk "data") (chunk_seq chunk)); cbn;
    split; intros H; try discriminate; try tauto.
  - destruct H as [->|[]]. reflexivity.
  - left. now inversion H.
Qed.

(** C4, as the code has it.  On a tick with cursor [C <> 0] the watcher
    asks for the events from [C] on.  When the page that comes back is in
    ascending order of sequence number, from [C] on, and none of its
    entries makes the decoding panic, the watcher sends one message for
    each entry that decodes and for no other, in page order; the hashes of
    these messages are derived from strictly increasing sequence numbers,
    all at least [C]; the [Sequence] field of each is the [sequence]
    member of the event's data, whatever it is; and the cursor ends at the
    greatest sequence number of the page plus one, as a [uint64] (it is
    left alone by an empty page).  The health query follows. *)
Theorem warm_poll K rpc st doc :
  next_sequence (fst st) <> 0 ->
  rpc (timer_query (fst st)) = Got (WellFormed doc) ->
  Forall has_seq (Array (Some doc)) ->
  StronglySorted Z.lt (map chunk_seq (Array (Some doc))) ->
  Forall (fun c => next_sequence (fst st) <= chunk_seq c)
    (Array (Some doc)) ->
  Forall (decodes_without_panic K) (Array (Some doc)) ->
  exists st2,
    timer_query (fst st)
      = (aptosQuery (fst st) ++ "?start="
           ++ Go.itoa (next_sequence (fst st)))%string /\
    Run_timer K rpc st = Run_health rpc st2 /\
    msgChan (fst st2)
      = msgChan (fst st) ++ flat_map (decoded K) (Array (Some doc)) /\
    (forall chunk m,
       In m (decoded K chunk) <->
       observeData K (Get chunk "data") (chunk_seq chunk) = Published m) /\
    (forall chunk m,
       In m (decoded K chunk) ->
       TxHash m = hash_of_seq (chunk_seq chunk) /\
       Sequence m = Uint (Get (Get chunk "data") "sequence")) /\
    (exists seqs,
       StronglySorted Z.lt seqs /\
       Forall (fun n => next_sequence (fst st) <= n) seqs /\
       map TxHash (flat_map (decoded K) (Array (Some doc)))
         = map hash_of_seq seqs) /\
    (Array (Some doc) = [] ->
       next_sequence (fst st2) = next_sequence (fst st)) /\
    (Array (Some doc) <> [] ->
       exists M,
         In M (map chunk_seq (Array (Some doc))) /\
         (forall n, In n (map chunk_seq (Array (Some doc))) -> n <= M) /\
         next_sequence (fst st2) = Go.uint64 (M + 1) /\
         (M < 2 ^ 64 - 1 -> next_sequence (fst st2) = M + 1)).
Proof.
  intros Hwarm Hpoll Hseq Hsorted Hfrom Hpanic.
  set (page := Array (Some doc)) in *.
  destruct (timer_range_warm K page
              (fst st, http_Get (timer_query (fst st)) (snd st))
              (fun _ => Hwarm) Hseq Hsorted Hpanic)
    as (st2 & E & Hm & Hn & _).
  exists st2. repeat split.
  - unfold timer_query. apply Z.eqb_neq in Hwarm. now rewrite Hwarm.
  - unfold Run_timer, retrievePayload. cbv zeta. rewrite Hpoll.
    cbn [body_is_empty fst snd]. fold page. now rewrite E.
  - exact Hm.
  - apply decoded_iff.
  - apply decoded_iff.
  - apply decoded_iff in H. now apply observeData_Published in H.
  - apply decoded_iff in H. now apply observeData_Published in H.
  - exists (flat_map (fun c => map (fun _ => chunk_seq c) (decoded K c)) page).
    split; [now apply decoded_seqs_sorted|]. split; [|apply decoded_hashes].
    rewrite Forall_forall in *. intros n Hin.
    apply in_flat_map in Hin. destruct Hin as (c & Hc & Hin).
    apply in_map_iff in Hin. destruct Hin as (m & <- & _). now apply Hfrom.
  - intros Hnil. rewrite Hn, Hnil. reflexivity.
  - intros Hne. exists (last (map chunk_seq page) 0).
    assert (Hmap : map chunk_seq page <> [])
      by (destruct page; [now elim Hne|discriminate]).
    split; [now apply last_In|].
    split; [now apply sorted_last_max|].
    assert (Hcur : next_sequence (fst st2)
                   = Go.uint64 (last (map chunk_seq page) 0 + 1))
      by (rewrite Hn; destruct page; [now elim Hne|reflexivity]).
    split; [exact Hcur|].
    intros Hbound. rewrite Hcur. unfold Go.uint64.
    apply Z.mod_small.
    pose proof (last_In _ Hmap) as Hin.
    apply in_map_iff in Hin. destruct Hin as (c & Hc & _).
    pose proof (Uint_range (Get c "sequence_number")) as Hr.
    fold (chunk_seq c) in Hr. lia.
Qed.

Lemma warm_poll_witness :
  exists st2,
    Run_timer Sample.ChainIDAptos Sample.two_emitters_page
      (Sample.watcher 5, Sample.process)
      = Run_health Sample.two_emitters_page st2 /\
    List.length (msgChan (fst st2)) = 2%nat /\
    next_sequence (fst st2) = 7.
Proof.
  assert (H1 : next_sequence (fst (Sample.watcher 5, Sample.process)) <> 0)
    by (cbn; lia).
  assert (H3 : Forall has_seq (Array (Some Sample.two_emitters)))
    by (repeat constructor).
  assert (H4 : StronglySorted Z.lt
                 (map chunk_seq (Array (Some Sample.two_emitters))))
    by (vm_compute; repeat constructor).
  assert (H5 : Forall (fun c => 5 <= chunk_seq c)
                 (Array (Some Sample.two_emitters)))
    by (repeat constructor; vm_compute; discriminate).
  assert (H6 : Forall (decodes_without_panic Sample.ChainIDAptos)
                 (Array (Some Sample.two_emitters)))
    by (repeat constructor; intros msg; vm_compute; discriminate).
  destruct (warm_poll Sample.ChainIDAptos Sample.two_emitters_page
              (Sample.watcher 5, Sample.process) Sample.two_emitters
              H1 eq_refl H3 H4 H5 H6)
    as (st2 & _ & Hrun & Hmsg & _ & _ & _ & _ & Hcur).
  exists st2. split; [exact Hrun|]. split.
  - rewrite Hmsg. reflexivity.
  - destruct Hcur as (M & HM & Hmax & _ & Hnext); [discriminate|].
    assert (M = 6).
    { pose proof (Hmax 6 (or_intror (or_introl eq_refl))) as Hge.
      destruct HM as [<-|[<-|[]]]; [vm_compute in Hge; now elim Hge|reflexivity]. }
    subst M. apply Hnext. reflexivity.
Defined.

(** C4, as stated, fails.  Events 5 and 6 of the handle are message 9 of
    emitter 1 and message 3 of emitter 2.  From cursor 5 the watcher
    sends both, in page order; their [Sequence] values are 9 then 3. *)
Lemma warm_poll_sequence_not_increasing :
  map chunk_seq (Array (Some Sample.two_emitters)) = [5; 6] /\
  map Sequence
    (msgChan (fst (fst (Run_timer Sample.ChainIDAptos
                          Sample.two_emitters_page
                          (Sample.watcher 5, Sample.process)))))
    = [9; 3] /\
  ~ StronglySorted Z.lt
      (map Sequence
         (msgChan (fst (fst (Run_timer Sample.ChainIDAptos
                               Sample.two_emitters_page
                               (Sample.watcher 5, Sample.process)))))).
Proof.
  split; [reflexivity|]. split; [vm_compute; reflexivity|].
  intros H. vm_compute in H.
  inversion H as [|? ? _ Hlt]; subst.
  inversion Hlt as [|? ? H93 _]; subst. discriminate H93.
Qed.

End WatcherSpec.

(* ================================================================== *)
(** * Properties of the redeemers *)
(* ================================================================== *)

Module RedeemSpec.
Import Redeem.

(** ** Solana *)

Ltac step_redeem :=
  repeat match goal with
    | H : context [match ?x with _ => _ end] |- _ => destruct x eqn:?
    | H : context [if ?b then _ else _] |- _ => destruct b eqn:?
    end.

(** What a returned unwrap transaction is made of. *)
Lemma redeemAndUnwrapOnSolana_Return sdk connection kp bridge tokenBridge
  payer vaa tx :
  redeemAndUnwrapOnSolana sdk connection kp bridge tokenBridge payer vaa
    = Return tx ->
  exists p target rent blockhash,
    unwrap_inputs_ok sdk connection payer vaa p target rent blockhash /\
    tx = {| recentBlockhash := Some blockhash;
            feePayer := Some payer;
            instructions :=
              unwrap_instructions sdk kp bridge tokenBridge payer vaa
                target rent (targetAmount sdk (amount p));
            signatures := [publicKey kp] |}.
Proof.
  unfold redeemAndUnwrapOnSolana, bind, try, new_PublicKey. intros H.
  step_redeem; try discriminate.
  repeat match goal with
         | H : Return _ = Return _ |- _ => inversion H; subst; clear H
         end.
  match goal with
  | H : String.eqb _ "" = false |- _ => apply String.eqb_neq in H
  end.
  eexists _, _, _, _. split.
  - unfold unwrap_inputs_ok. repeat split; eauto.
  - reflexivity.
Qed.

Lemma redeemAndUnwrapOnSolana_returns sdk connection kp bridge tokenBridge
  payer vaa p target rent blockhash :
  unwrap_inputs_ok sdk connection payer vaa p target rent blockhash ->
  redeemAndUnwrapOnSolana sdk connection kp bridge tokenBridge payer vaa
  = Return {| recentBlockhash := Some blockhash;
              feePayer := Some payer;
              instructions :=
                unwrap_instructions sdk kp bridge tokenBridge payer vaa
                  target rent (targetAmount sdk (amount p));
              signatures := [publicKey kp] |}.
Proof.
  intros ((v & Hv & Hp) & Ht & Hne & Hk1 & Hr & Hk2 & Hk3 & Hb).
  unfold redeemAndUnwrapOnSolana, bind, try, new_PublicKey.
  rewrite Hv, Hp, Ht. apply String.eqb_neq in Hne. rewrite Hne.
  rewrite Hk1, Hr, Hk2, Hk3, Hb. reflexivity.
Qed.

(** C7.  Every transaction that [redeemAndUnwrapOnSolana] returns holds,
    in this order, the completion instruction, the creation of the
    temporary account, its initialisation, the transfer and the closing
    of the account, and is signed by the temporary account's key and by
    no other; and the function does return when the message parses, the
    addresses are valid keys and the connection answers. *)
Theorem unwrap_transaction sdk connection kp bridge tokenBridge payer vaa :
  (forall tx,
     redeemAndUnwrapOnSolana sdk connection kp bridge tokenBridge payer vaa
       = Return tx ->
     signatures tx = [publicKey kp] /\
     exists p target rent,
       instructions tx
       = [ complete_transfer_native_ix tokenBridge bridge payer vaa None;
           createAccount payer (publicKey kp) rent
             (AccountLayout_span sdk) (TOKEN_PROGRAM_ID sdk);
           createInitAccountInstruction (TOKEN_PROGRAM_ID sdk)
             (WSOL_ADDRESS sdk) (publicKey kp) payer;
           createTransferInstruction (TOKEN_PROGRAM_ID sdk) target
             (publicKey kp) payer [] (targetAmount sdk (amount p));
           createCloseAccountInstruction (TOKEN_PROGRAM_ID sdk)
             (publicKey kp) payer payer [] ]) /\
  (forall p target rent blockhash,
     unwrap_inputs_ok sdk connection payer vaa p target rent blockhash ->
     exists tx,
       redeemAndUnwrapOnSolana sdk connection kp bridge tokenBridge payer
         vaa = Return tx).
Proof.
  split.
  - intros tx H. apply redeemAndUnwrapOnSolana_Return in H.
    destruct H as (p & target & rent & blockhash & _ & ->).
    split; [reflexivity|]. exists p, target, rent. reflexivity.
  - intros p target rent blockhash H. eexists.
    eapply redeemAndUnwrapOnSolana_returns; eauto.
Qed.

Lemma sample_unwrap_inputs_ok :
  exists p,
    unwrap_inputs_ok Sample.sdk Sample.connection "payer1" Sample.to_solana
      p "000000000000000000000000000000000000000000000000000000000000beef"
      2039280 "EETubP5AKHgjPAhzPAFcb8BAY1hMH639CWCFTqi3hq1k"
    /\ amount p = 150000000.
Proof.
  eexists. split.
  - unfold unwrap_inputs_ok. split; [eexists; split; vm_compute; reflexivity|].
    repeat split; try (vm_compute; reflexivity). discriminate.
  - reflexivity.
Qed.

Lemma unwrap_transaction_witness :
  exists tx,
    redeemAndUnwrapOnSolana Sample.sdk Sample.connection Sample.ancillary
      "Bridge1" "TokenBridge1" "payer1" Sample.to_solana = Return tx /\
    signatures tx = [publicKey Sample.ancillary] /\
    List.length (instructions tx) = 5%nat.
Proof.
  destruct sample_unwrap_inputs_ok as (p & Hok & _).
  destruct (unwrap_transaction Sample.sdk Sample.connection Sample.ancillary
              "Bridge1" "TokenBridge1" "payer1" Sample.to_solana)
    as [Hshape Hret].
  destruct (Hret _ _ _ _ Hok) as (tx & Htx).
  exists tx. split; [exact Htx|].
  destruct (Hshape tx Htx) as (Hsig & p' & target & rent & Hix).
  split; [exact Hsig|]. rewrite Hix. reflexivity.
Defined.

(** C8.  [WSOL_DECIMALS] exceeds [MAX_VAA_DECIMALS] by one (they are 9
    and 8 in the SDK), so the unwrap is a rescaling to a destination
    precision that is not below the wire precision.  Its amount is the
    wire amount scaled exactly: multiplied by ten to the difference of
    the two precisions, which is what the rescaling of the specification
    gives; no digit is lost.  This is the amount of the transfer
    instruction of every transaction that the unwrap redeemer returns. *)
Theorem unwrap_amount_exact sdk (wire : Z) :
  WSOL_DECIMALS sdk - MAX_VAA_DECIMALS sdk = 1 ->
  targetAmount sdk wire
    = wire * 10 ^ (WSOL_DECIMALS sdk - MAX_VAA_DECIMALS sdk) /\
  MAX_VAA_DECIMALS sdk <= WSOL_DECIMALS sdk /\
  targetAmount sdk wire
    = spec_rescale (MAX_VAA_DECIMALS sdk) (WSOL_DECIMALS sdk) wire /\
  targetAmount sdk wire / 10 ^ (WSOL_DECIMALS sdk - MAX_VAA_DECIMALS sdk)
    = wire /\
  forall connection kp bridge tokenBridge payer vaa tx,
    redeemAndUnwrapOnSolana sdk connection kp bridge tokenBridge payer vaa
      = Return tx ->
    exists p target,
      (exists v, parse_vaa sdk vaa = Some v /\
                 parseTransferPayload sdk (payload v) = Some p) /\
      nth_error (instructions tx) 3
        = Some (createTransferInstruction (TOKEN_PROGRAM_ID sdk) target
                  (publicKey kp) payer []
                  (amount p
                     * 10 ^ (WSOL_DECIMALS sdk - MAX_VAA_DECIMALS sdk))).
Proof.
  intros Hd.
  assert (Hexact : forall a,
            targetAmount sdk a
            = a * 10 ^ (WSOL_DECIMALS sdk - MAX_VAA_DECIMALS sdk)).
  { intros a. unfold targetAmount. rewrite Hd. cbn. lia. }
  split; [apply Hexact|]. split; [lia|]. split; [|split].
  - unfold spec_rescale.
    replace (MAX_VAA_DECIMALS sdk <=? WSOL_DECIMALS sdk) with true
      by (symmetry; apply Z.leb_le; lia).
    apply Hexact.
  - rewrite Hexact, Hd. apply Z.div_mul. discriminate.
  - intros connection kp bridge tokenBridge payer vaa tx H.
    apply redeemAndUnwrapOnSolana_Return in H.
    destruct H as (p & target & rent & blockhash & (Hparse & _) & ->).
    exists p, target. split; [exact Hparse|].
    cbn. now rewrite Hexact.
Qed.

Lemma unwrap_amount_exact_witness :
  WSOL_DECIMALS Sample.sdk - MAX_VAA_DECIMALS Sample.sdk = 1 /\
  targetAmount Sample.sdk 150000000 = 150000000 * 10 ^ (9 - 8).
Proof.
  split; [reflexivity|].
  exact (proj1 (unwrap_amount_exact Sample.sdk 150000000 eq_refl)).
Defined.

(** [redeemOnSolana] returns a transaction as soon as the message parses,
    its payload is long enough to read the origin chain, the payer is a
    valid key and the connection answers. *)
Lemma redeemOnSolana_returns sdk connection bridge tokenBridge payer vaa
  feeRecipient v origin blockhash :
  parse_vaa sdk vaa = Some v ->
  readUInt16BE 65 (payload v) = Some origin ->
  getRecentBlockhash connection = Some blockhash ->
  isPublicKey sdk payer = true ->
  redeemOnSolana sdk connection bridge tokenBridge payer vaa feeRecipient
  = Return
      {| recentBlockhash := Some blockhash;
         feePayer := Some payer;
         instructions :=
           if origin =? CHAIN_ID_SOLANA sdk
           then [complete_transfer_native_ix tokenBridge bridge payer vaa
                   feeRecipient]
           else [complete_transfer_wrapped_ix tokenBridge bridge payer vaa
                   feeRecipient];
         signatures := [] |}.
Proof.
  intros Hv Ho Hb Hk. unfold redeemOnSolana, bind, try, new_PublicKey.
  rewrite Hv, Ho, Hb, Hk. reflexivity.
Qed.

(** C2, as the code has it.  [redeemOnNear] throws, before it asks the
    client for anything, when the message is not destined for NEAR (or
    does not parse): the chain and the list of operations are as they
    were.  [redeemOnSolana] never looks at the target chain: what it
    returns is settled by the origin chain read from the payload, the
    payer and the connection. *)
Theorem wrong_target_chain W sdk (client : Account W) tokenBridge vaa st :
  (forall p, _parseVAAAlgorand sdk vaa = Some p ->
             ToChain p <> Some (CHAIN_ID_NEAR sdk) ->
             redeemOnNear sdk client tokenBridge vaa st
             = (Throw "Not destined for NEAR", st)) /\
  (_parseVAAAlgorand sdk vaa = None ->
     redeemOnNear sdk client tokenBridge vaa st
     = (Throw "_parseVAAAlgorand", st)) /\
  (forall connection bridge payer feeRecipient v origin blockhash,
     parse_vaa sdk vaa = Some v ->
     readUInt16BE 65 (payload v) = Some origin ->
     getRecentBlockhash connection = Some blockhash ->
     isPublicKey sdk payer = true ->
     exists tx,
       redeemOnSolana sdk connection bridge tokenBridge payer vaa
         feeRecipient = Return tx /\
       List.length (instructions tx) = 1%nat).
Proof.
  split; [|split].
  - intros p Hp Hto. unfold redeemOnNear. rewrite Hp.
    destruct (ToChain p) as [c|]; [|reflexivity].
    destruct (c =? CHAIN_ID_NEAR sdk) eqn:E; [|reflexivity].
    apply Z.eqb_eq in E. subst c. now elim Hto.
  - intros Hp. unfold redeemOnNear. now rewrite Hp.
  - intros connection bridge payer feeRecipient v origin blockhash
      Hv Ho Hb Hk.
    eexists. split.
    + eapply redeemOnSolana_returns; eauto.
    + cbn. now destruct (origin =? CHAIN_ID_SOLANA sdk).
Qed.

Lemma wrong_target_chain_witness :
  option_map ToChain (_parseVAAAlgorand Sample.sdk Sample.to_ethereum)
    = Some (Some 2) /\
  redeemOnNear Sample.sdk Sample.relayer "token.bridge"
    Sample.to_ethereum ([], [])
  = (Throw "Not destined for NEAR", ([], [])).
Proof.
  split; [vm_compute; reflexivity|].
  destruct (_parseVAAAlgorand Sample.sdk Sample.to_ethereum) as [p|] eqn:E;
    [|vm_compute in E; discriminate].
  refine (proj1 (wrong_target_chain Sample.Chain Sample.sdk Sample.relayer
                   "token.bridge" Sample.to_ethereum ([], [])) p E _).
  vm_compute in E. inversion E; subst. cbn. discriminate.
Defined.

(** C2, as stated, fails: a message whose target chain is 2, not
    Solana's 1, gets a transaction from [redeemOnSolana]. *)
Lemma solana_redeems_foreign_target :
  (exists v p,
     parse_vaa Sample.sdk Sample.to_ethereum = Some v /\
     parseTransferPayload Sample.sdk (payload v) = Some p /\
     targetChain p = 2 /\
     targetChain p <> CHAIN_ID_SOLANA Sample.sdk) /\
  redeemOnSolana Sample.sdk Sample.connection "Bridge1" "TokenBridge1"
    "payer1" Sample.to_ethereum None
  = Return
      {| recentBlockhash :=
           Some "EETubP5AKHgjPAhzPAFcb8BAY1hMH639CWCFTqi3hq1k";
         feePayer := Some "payer1";
         instructions :=
           [complete_transfer_wrapped_ix "TokenBridge1" "Bridge1" "payer1"
              Sample.to_ethereum None];
         signatures := [] |}.
Proof.
  split.
  - eexists _, _. split; [vm_compute; reflexivity|].
    split; [vm_compute; reflexivity|]. split; [reflexivity|].
    cbn. discriminate.
  - vm_compute. reflexivity.
Qed.

(** ** NEAR *)

Lemma Z_of_byte_inj (x y : byte) : Go.Z_of_byte x = Go.Z_of_byte y -> x = y.
Proof.
  unfold Go.Z_of_byte. intros H. apply N2Z.inj in H.
  pose proof (Byte.of_to_N x) as Hx. rewrite H, Byte.of_to_N in Hx.
  now inversion Hx.
Qed.

Lemma Buffer_compare_eq (a : list byte) :
  forall b, Buffer_compare a b = 0 <-> a = b.
Proof.
  induction a as [|x a IH]; intros [|y b]; cbn; split; intros H;
    try reflexivity; try discriminate.
  - destruct (Go.Z_of_byte x <? Go.Z_of_byte y) eqn:E1; [discriminate|].
    destruct (Go.Z_of_byte y <? Go.Z_of_byte x) eqn:E2; [discriminate|].
    apply Z.ltb_ge in E1, E2. apply IH in H. subst b. f_equal.
    apply Z_of_byte_inj. lia.
  - inversion H; subst. rewrite Z.ltb_irrefl. now apply IH.
Qed.

(** Rewrites with the answer of the client to the call the goal is stuck
    on, given that such calls always have one ([H]). *)
Ltac answered H :=
  match goal with
  | |- context [viewFunction ?c ?w ?t ?m ?a] =>
      let b := fresh "b" in let E := fresh "E" in
      destruct (H w (snd (hd ("", JsNull) a))) as (b & E);
      cbn [hd snd] in E; rewrite E; cbn [fst snd]; destruct (is_null b);
      cbn [fst snd]
  | |- context [functionCall ?c ?w (storage_deposit ?t ?a)] =>
      let o := fresh "o" in let w' := fresh "w" in let E := fresh "E" in
      destruct (H w a) as (o & w' & E); rewrite E; cbn [fst snd]
  | |- context [functionCall ?c ?w (submit_vaa _ _ _)] =>
      let o := fresh "o" in let w' := fresh "w" in let E := fresh "E" in
      destruct (H w) as (o & w' & E); rewrite E; cbn [fst snd]
  end.

Lemma fee_test (o : option (list byte)) :
  (o = None \/ o = Some zero_fee ->
   match o with
   | Some f => negb (Buffer_compare f zero_fee =? 0)
   | None => false
   end = false) /\
  ((exists f, o = Some f /\ f <> zero_fee) ->
   match o with
   | Some f => negb (Buffer_compare f zero_fee =? 0)
   | None => false
   end = true).
Proof.
  split.
  - intros [->| ->]; [reflexivity|].
    now rewrite (proj2 (Buffer_compare_eq zero_fee zero_fee) eq_refl).
  - intros (f & -> & Hf). apply negb_true_iff, Z.eqb_neq.
    intros H. now apply Buffer_compare_eq in H.
Qed.

(** C6.  A message for NEAR whose recipient resolves and whose asset is
    attested, with an asset contract other than the all-zero one, on a
    client none of whose calls is rejected: [redeemOnNear] returns, and
    the operations it issues are, in order: the two lookups; the storage
    balance of the recipient, followed by one [storage_deposit] for the
    recipient exactly when that balance is [null]; then, exactly when the
    message carries a fee other than zero, the storage balance of the
    client's own account, followed by one [storage_deposit] for it
    exactly when that balance, on the chain as it then is, is [null];
    then the completion calls. *)
Theorem near_registration W sdk (client : Account W) tokenBridge vaa
  p w lookup found user token :
  reliable client ->
  _parseVAAAlgorand sdk vaa = Some p ->
  ToChain p = Some (CHAIN_ID_NEAR sdk) ->
  viewFunction client w tokenBridge "hash_lookup"
    [("hash", JsString (uint8ArrayToHex sdk (ToAddress p)))] = Some lookup ->
  index lookup 0 = Some found ->
  falsy found = false ->
  index lookup 1 = Some user ->
  getForeignAssetNear client w tokenBridge (FromChain p) (Contract p)
    = Some token ->
  token <> "" ->
  Contract p <> zero_contract ->
  let payer := JsString (accountId client) in
  let w1 := after_registration client w token user in
  let lookups :=
    [ ViewFunction tokenBridge "hash_lookup"
        [("hash", JsString (uint8ArrayToHex sdk (ToAddress p)))];
      GetForeignAsset tokenBridge (FromChain p) (Contract p) ] in
  let register_user :=
    storage_balance_of token user
      :: (if unregistered client w token user
          then [Call (storage_deposit token user)] else []) in
  let register_payer :=
    storage_balance_of token payer
      :: (if unregistered client w1 token payer
          then [Call (storage_deposit token payer)] else []) in
  let completion :=
    [ Call (submit_vaa sdk tokenBridge vaa);
      Call (submit_vaa sdk tokenBridge vaa) ] in
  (exists r,
     fst (redeemOnNear sdk client tokenBridge vaa (w, [])) = Return r) /\
  (Fee p = None \/ Fee p = Some zero_fee ->
     snd (snd (redeemOnNear sdk client tokenBridge vaa (w, [])))
     = lookups ++ register_user ++ completion) /\
  ((exists f, Fee p = Some f /\ f <> zero_fee) ->
     snd (snd (redeemOnNear sdk client tokenBridge vaa (w, [])))
     = lookups ++ register_user ++ register_payer ++ completion).
Proof.
  intros (Hview & Hcall & _) Hp Hto Hlookup H0 Hfound H1 Htoken Hne Hc.
  intros payer w1 lookups register_user register_payer completion.
  subst payer w1 lookups register_user register_payer completion.
  pose proof (fee_test (Fee p)) as [Hnofee Hfee].
  apply String.eqb_neq in Hne, Hc.
  unfold redeemOnNear, after_registration, unregistered.
  rewrite Hp, Hto, Z.eqb_refl. cbn [negb].
  unfold mbind, client_viewFunction, client_getForeignAssetNear,
    client_functionCall, ret, throw.
  cbn [fst snd app]. rewrite Hlookup, H0. cbn [fst snd]. rewrite Hfound, H1.
  cbn [fst snd]. rewrite Htoken. cbn [fst snd]. rewrite Hne, Hc.
  cbn [negb fst snd app].
  destruct (viewFunction client w token "storage_balance_of"
              [("account_id", user)]) as [bal|] eqn:Ev;
    [|now elim (Hview _ _ _ _ Ev)].
  assert (Hsubmit : forall w', exists o w'',
             functionCall client w' (submit_vaa sdk tokenBridge vaa)
             = Some (o, w'')).
  { intros w'.
    destruct (functionCall client w' (submit_vaa sdk tokenBridge vaa))
      as [[o w'']|] eqn:E; [eauto|now elim (Hcall _ _ E)]. }
  assert (Hdeposit : forall w' a, exists o w'',
             functionCall client w' (storage_deposit token a)
             = Some (o, w'')).
  { intros w' a.
    destruct (functionCall client w' (storage_deposit token a))
      as [[o w'']|] eqn:E; [eauto|now elim (Hcall _ _ E)]. }
  assert (Hbal : forall w' a, exists b,
             viewFunction client w' token "storage_balance_of"
               [("account_id", a)] = Some b).
  { intros w' a.
    destruct (viewFunction client w' token "storage_balance_of"
                [("account_id", a)]) as [b|] eqn:E;
      [eauto|now elim (Hview _ _ _ _ E)]. }
  cbn [fst snd].
  destruct (is_null bal) eqn:Enull; cbn [fst snd];
    [destruct (Hdeposit w user) as (o & wu & Ed); rewrite Ed; cbn [fst snd]|];
    (split; [|split]).
  all: try (intros Hf; first [rewrite (Hnofee Hf)|rewrite (Hfee Hf)]);
    try destruct (match Fee p with
                  | Some f => negb (Buffer_compare f zero_fee =? 0)
                  | None => false
                  end); cbn [fst snd].
  all: repeat (answered Hbal || answered Hdeposit || answered Hsubmit);
    try reflexivity; eauto.
Qed.

Lemma relayer_reliable : reliable Sample.relayer.
Proof.
  split; [|split].
  - intros w c m a. cbn. unfold Sample.near_view.
    destruct (String.eqb m "hash_lookup"); [discriminate|].
    destruct a as [|[k v] [|x a]]; discriminate.
  - intros w c. cbn. unfold Sample.near_call.
    destruct (String.eqb (methodName c) "storage_deposit"); [|discriminate].
    destruct (args c) as [|[k v] a]; discriminate.
  - intros w b c a. cbn. discriminate.
Qed.

Lemma near_registration_witness :
  Sample.called_methods
    (snd (snd (redeemOnNear Sample.sdk Sample.relayer "token.bridge"
                 (Sample.to_near 5) ([], []))))
  = ["storage_deposit"; "storage_deposit"; "submit_vaa"; "submit_vaa"].
Proof.
  destruct (_parseVAAAlgorand Sample.sdk (Sample.to_near 5)) as [p|] eqn:E;
    [|vm_compute in E; discriminate].
  assert (Hp : p = {| ToChain := Some 15;
                      ToAddress := Sample.be 32 48879;
                      FromChain := 2;
                      Contract := Sample.hex (Sample.be 32 4660);
                      Fee := Some (Sample.be 32 5) |})
    by (vm_compute in E; inversion E; reflexivity).
  pose proof
    (near_registration Sample.Chain Sample.sdk Sample.relayer
       "token.bridge" (Sample.to_near 5) p []
       (JsArray [JsBool true; JsString "alice.near"]) (JsBool true)
       (JsString "alice.near") "weth.near" relayer_reliable E) as H.
  rewrite Hp in H.
  specialize (H eq_refl eq_refl eq_refl eq_refl eq_refl eq_refl).
  assert (Hweth : "weth.near" <> "") by discriminate.
  assert (Hcontract :
            Contract {| ToChain := Some 15;
                        ToAddress := Sample.be 32 48879;
                        FromChain := 2;
                        Contract := Sample.hex (Sample.be 32 4660);
                        Fee := Some (Sample.be 32 5) |} <> zero_contract)
    by (vm_compute; discriminate).
  destruct (H Hweth Hcontract) as (_ & _ & Hfee).
  assert (Hnonzero : exists f,
             Some (Sample.be 32 5) = Some f /\ f <> zero_fee)
    by (exists (Sample.be 32 5); split;
        [reflexivity|vm_compute; discriminate]).
  apply Hfee in Hnonzero.
  apply (f_equal Sample.called_methods) in Hnonzero.
  etransitivity; [exact Hnonzero|]. vm_compute. reflexivity.
Defined.

(** The other cases on the sample chain: nobody registered and no fee,
    one deposit; the recipient registered and no fee, none. *)
Example near_registration_examples :
  Sample.called_methods
    (snd (snd (redeemOnNear Sample.sdk Sample.relayer "token.bridge"
                 (Sample.to_near 0) ([], []))))
  = ["storage_deposit"; "submit_vaa"; "submit_vaa"] /\
  Sample.called_methods
    (snd (snd (redeemOnNear Sample.sdk Sample.relayer "token.bridge"
                 (Sample.to_near 0)
                 ([("weth.near", JsString "alice.near")], []))))
  = ["submit_vaa"; "submit_vaa"].
Proof. split; vm_compute; reflexivity. Qed.

End RedeemSpec.

(* ================================================================== *)
(** * Further properties of the watcher *)
(* ================================================================== *)

Module WatcherMore.
Import gjson Aptos.

(** ** Bytes *)

Lemma Z_of_byte_of_Z (z : Z) : Go.Z_of_byte (Go.byte_of_Z z) = z mod 256.
Proof.
  unfold Go.Z_of_byte, Go.byte_of_Z.
  assert (Hr : 0 <= z mod 256 < 256) by (apply Z.mod_pos_bound; lia).
  destruct (Byte.of_N (Z.to_N (z mod 256))) as [b|] eqn:E.
  - apply Byte.to_of_N in E. rewrite E. apply Z2N.id. lia.
  - apply Byte.of_N_None_iff in E. lia.
Qed.

Lemma bits_above (v n : Z) : 0 <= v < 2 ^ 64 -> 64 <= n -> Z.testbit v n = false.
Proof.
  intros Hv Hn. rewrite <- (Z.mod_small v (2 ^ 64)) by exact Hv.
  rewrite Z.testbit_mod_pow2 by lia.
  now rewrite (proj2 (Z.ltb_ge n 64)) by lia.
Qed.

Ltac settle_bits v :=
  repeat match goal with
    | |- context [?a <? 8] =>
        first [ rewrite (proj2 (Z.ltb_ge a 8)) by lia
              | rewrite (proj2 (Z.ltb_lt a 8)) by lia ]
    end;
  repeat match goal with
    | |- context [Z.testbit (Z.shiftr v ?k) ?i] =>
        first [ rewrite (Z.testbit_neg_r (Z.shiftr v k) i) by lia
              | rewrite (Z.shiftr_spec v k i) by lia ]
    end;
  cbn [andb orb]; rewrite ?orb_false_r;
  repeat match goal with
    | |- context [Z.testbit v ?i] =>
        lazymatch i with
        | _ + _ => replace i with (i + 0 - 0) by lia; ring_simplify i
        end
    end.

(** The eight bytes [PutUint64] writes are read back by [Uint64],
    whatever follows them. *)
Lemma Uint64_PutUint64 (v : Z) (tail : list byte) :
  0 <= v < 2 ^ 64 -> Go.Uint64 (Go.PutUint64 v ++ tail) = Some v.
Proof.
  intros Hv. unfold Go.PutUint64. cbn [app Go.Uint64].
  rewrite !Z_of_byte_of_Z. f_equal.
  change 256 with (2 ^ 8).
  apply Z.bits_inj'. intros n Hn.
  rewrite !Z.lor_spec, !Z.shiftl_spec by lia.
  rewrite !Z.testbit_mod_pow2 by lia.
  destruct (Z_lt_le_dec n 64) as [H64|H64].
  - assert (Hcase : n < 8 \/ 8 <= n < 16 \/ 16 <= n < 24 \/ 24 <= n < 32 \/
                    32 <= n < 40 \/ 40 <= n < 48 \/ 48 <= n < 56 \/
                    56 <= n < 64) by lia.
    destruct Hcase as [H|[H|[H|[H|[H|[H|[H|H]]]]]]]; settle_bits v;
      try reflexivity; f_equal; lia.
  - rewrite (bits_above v n Hv H64). settle_bits v.
    rewrite ?bits_above by lia. reflexivity.
Qed.

Lemma hash_of_seq_bytes (seq : Z) :
  hash_of_seq seq = repeat x00 24 ++ Go.PutUint64 seq.
Proof. reflexivity. Qed.

Lemma Uint64_short (b : list byte) :
  (List.length b < 8)%nat -> Go.Uint64 b = None.
Proof.
  intros H.
  do 8 (destruct b as [|? b]; [reflexivity|]).
  cbn in H. lia.
Qed.

(** ** The request case, continued *)

Lemma Run_obsvReq_requests K rpc r st S :
  Go.uint16 (ChainId r) = K ->
  Go.Uint64 (ReqTxHash r) = Some S ->
  requests (snd (fst (Run_obsvReq K rpc r st)))
  = requests (snd st) ++ [obsvReq_query (fst st) S].
Proof.
  intros Hchain Hseq. unfold Run_obsvReq.
  apply Z.eqb_eq in Hchain. rewrite Hchain, Hseq. cbn [negb].
  unfold retrievePayload. cbv zeta.
  destruct (rpc (obsvReq_query (fst st) S)) as [err|[text|doc]];
    try reflexivity.
  destruct (WatcherSpec.obsvReq_range_spec K S (Array (Some doc))
              (fst st, http_Get (obsvReq_query (fst st) S) (snd st)))
    as (new & _ & _ & H3 & _).
  now rewrite H3.
Qed.

(** X1.  The hash of a message the watcher published holds the native
    sequence number in its last eight bytes, but a request is read from
    the first eight bytes of its hash.  So a request that carries the
    32-byte hash of a published message asks the node for event 0, whatever
    the message was; only a request that carries the last eight bytes asks
    for the event the message came from. *)
Theorem replay_by_message_hash K rpc st data native_seq m chain :
  0 <= native_seq < 2 ^ 64 ->
  observeData K data native_seq = Published m ->
  Go.uint16 chain = K ->
  Go.Uint64 (TxHash m) = Some 0 /\
  Go.Uint64 (skipn 24 (TxHash m)) = Some native_seq /\
  requests (snd (fst (Run_obsvReq K rpc
                        {| ChainId := chain; ReqTxHash := TxHash m |} st)))
  = requests (snd st) ++ [(aptosQuery (fst st) ++ "?start=0&limit=1")%string] /\
  requests (snd (fst (Run_obsvReq K rpc
                        {| ChainId := chain;
                           ReqTxHash := skipn 24 (TxHash m) |} st)))
  = requests (snd st)
      ++ [(aptosQuery (fst st) ++ "?start=" ++ Go.itoa native_seq
             ++ "&limit=1")%string].
Proof.
  intros Hseq Hpub Hchain.
  apply WatcherSpec.observeData_Published in Hpub.
  destruct Hpub as (_ & _ & _ & _ & _ & _ & _ & Hhash & _).
  rewrite Hhash, hash_of_seq_bytes.
  assert (H0 : Go.Uint64 (repeat x00 24 ++ Go.PutUint64 native_seq) = Some 0)
    by reflexivity.
  assert (H8 : Go.Uint64 (skipn 24 (repeat x00 24 ++ Go.PutUint64 native_seq))
               = Some native_seq).
  { change (skipn 24 (repeat x00 24 ++ Go.PutUint64 native_seq))
      with (Go.PutUint64 native_seq).
    rewrite <- (app_nil_r (Go.PutUint64 native_seq)).
    now apply Uint64_PutUint64. }
  split; [exact H0|]. split; [exact H8|]. split.
  - exact (Run_obsvReq_requests K rpc
             {| ChainId := chain;
                ReqTxHash := repeat x00 24 ++ Go.PutUint64 native_seq |}
             st 0 Hchain H0).
  - exact (Run_obsvReq_requests K rpc
             {| ChainId := chain;
                ReqTxHash :=
                  skipn 24 (repeat x00 24 ++ Go.PutUint64 native_seq) |}
             st native_seq Hchain H8).
Qed.

Lemma replay_by_message_hash_witness :
  exists m,
    observeData Sample.ChainIDAptos
      (Some (Sample.event_data "1" "0x01" "1666000000" "0" "9" "0")) 5
      = Published m /\
    Go.Uint64 (TxHash m) = Some 0 /\
    Go.Uint64 (skipn 24 (TxHash m)) = Some 5.
Proof.
  eexists. split; [vm_compute; reflexivity|].
  match goal with
  | |- Go.Uint64 (TxHash ?m) = _ /\ _ =>
      pose proof (replay_by_message_hash Sample.ChainIDAptos
                    (Sample.replay_page "5")
                    (Sample.watcher 9, Sample.process)
                    (Some (Sample.event_data "1" "0x01" "1666000000" "0" "9" "0"))
                    5 m 22) as H
  end.
  destruct H as (H0 & H8 & _); [lia|vm_compute; reflexivity|reflexivity|].
  split; [exact H0|exact H8].
Defined.

(** X2.  A request for Aptos whose hash has fewer than eight bytes makes
    the goroutine panic in [binary.BigEndian.Uint64]: nothing is fetched or
    counted, and the loop does not go on. *)
Theorem short_hash_request_panics K rpc r st rest :
  Go.uint16 (ChainId r) = K ->
  (List.length (ReqTxHash r) < 8)%nat ->
  Run_obsvReq K rpc r st = (st, Panic "index out of range") /\
  Run_loop K (ObsvReq r rpc :: rest) st = (st, Crashed "index out of range").
Proof.
  intros Hchain Hlen.
  assert (E : Run_obsvReq K rpc r st = (st, Panic "index out of range")).
  { unfold Run_obsvReq. apply Z.eqb_eq in Hchain. rewrite Hchain.
    cbn [negb]. now rewrite (Uint64_short _ Hlen). }
  split; [exact E|]. cbn [Run_loop Run_select]. now rewrite E.
Qed.

Lemma short_hash_request_panics_witness :
  snd (Run_loop Sample.ChainIDAptos
         [ObsvReq {| ChainId := 22; ReqTxHash := [x00; x00; x00; x05] |}
            (Sample.replay_page "5")]
         (Sample.watcher 9, Sample.process))
  = Crashed "index out of range".
Proof.
  destruct (short_hash_request_panics Sample.ChainIDAptos
              (Sample.replay_page "5")
              {| ChainId := 22; ReqTxHash := [x00; x00; x00; x05] |}
              (Sample.watcher 9, Sample.process) [])
    as [_ E]; [reflexivity|cbn; lia|].
  rewrite E. reflexivity.
Defined.

(** ** [observeData], continued *)

Lemma uint32_range (z : Z) : 0 <= Go.uint32 z < 2 ^ 32.
Proof. unfold Go.uint32. apply Z.mod_pos_bound. lia. Qed.

Lemma uint8_range (z : Z) : 0 <= Go.uint8 z < 2 ^ 8.
Proof. unfold Go.uint8. apply Z.mod_pos_bound. lia. Qed.

Lemma int64_range (z : Z) : - 2 ^ 63 <= Go.int64 z < 2 ^ 63.
Proof.
  unfold Go.int64. cbv zeta.
  pose proof (WatcherSpec.uint64_range z) as H.
  destruct (Go.uint64 z <? 2 ^ 63) eqn:E.
  - apply Z.ltb_lt in E. lia.
  - apply Z.ltb_ge in E. lia.
Qed.

Lemma observeData_well_formed K data native_seq m :
  observeData K data native_seq = Published m -> well_formed K m.
Proof.
  unfold observeData. cbv zeta. intros H.
  WatcherSpec.step_observe; try discriminate.
  inversion H; subst; clear H. unfold well_formed.
  cbn [TxHash Timestamp Nonce Sequence EmitterChain EmitterAddress
       ConsistencyLevel].
  repeat split; try reflexivity;
    try apply uint32_range; try apply uint8_range;
    try apply int64_range; try apply WatcherSpec.Uint_range.
Qed.

Lemma observeData_Panicked K data native_seq msg :
  observeData K data native_seq = Panicked msg ->
  Exists (Get data "sender") = true /\
  (String_ (Get data "sender") = "0" \/ Uint (Get data "sender") <> 0) /\
  Exists (Get data "payload") = true /\
  (String.length (String_ (Get data "payload")) < 2)%nat /\
  msg = "slice bounds out of range".
Proof.
  unfold observeData, Go.slice_from. cbv zeta.
  intros H. WatcherSpec.step_observe; try discriminate.
  inversion H; subst; clear H.
  repeat match goal with
         | H : negb _ = false |- _ => apply negb_false_iff in H
         end.
  repeat split; try assumption.
  - match goal with
    | H : _ && _ = false |- _ =>
        apply andb_false_iff in H; destruct H as [Hstr|Hnum]
    end.
    + left. apply negb_false_iff in Hstr. now apply String.eqb_eq.
    + right. now apply Z.eqb_neq.
  - match goal with
    | H : (_ <=? _)%nat = false |- _ => apply Nat.leb_gt in H; exact H
    end.
Qed.

(** X3.  [observeData] panics on exactly one kind of event: one whose
    sender is there and passes the emitter check, and whose payload is
    there with a string of fewer than two characters.  Whatever else is
    wrong with an event, it is dropped. *)
Theorem observeData_panics_iff K data native_seq msg :
  observeData K data native_seq = Panicked msg <->
  Exists (Get data "sender") = true /\
  (String_ (Get data "sender") = "0" \/ Uint (Get data "sender") <> 0) /\
  Exists (Get data "payload") = true /\
  (String.length (String_ (Get data "payload")) < 2)%nat /\
  msg = "slice bounds out of range".
Proof.
  split; [apply observeData_Panicked|].
  unfold observeData, Go.slice_from. cbv zeta.
  intros (Hs & Hem & Hp & Hlen & ->).
  rewrite Hs, Hp. cbn [negb].
  replace (negb (String.eqb (String_ (Get data "sender")) "0")
           && (Uint (Get data "sender") =? 0)) with false.
  - apply Nat.leb_gt in Hlen. now rewrite Hlen.
  - symmetry. destruct Hem as [E|E].
    + rewrite E. reflexivity.
    + apply andb_false_iff. right. now apply Z.eqb_neq.
Qed.

(** X4.  An event that lacks one of the six fields is never published.  It
    is dropped with a log line, unless its sender passes the emitter check
    and its payload is there with fewer than two characters (the one case
    in which the decoding panics before it gets to the later fields). *)
Theorem missing_field_never_published K data native_seq field :
  In field ["sender"; "payload"; "timestamp"; "nonce"; "sequence";
            "consistency_level"] ->
  Get data field = None ->
  (forall m, observeData K data native_seq <> Published m) /\
  ((2 <= String.length (String_ (Get data "payload")))%nat \/
   field = "sender" \/ field = "payload" ->
   exists log, observeData K data native_seq = Dropped log).
Proof.
  intros Hin Hnone.
  assert (Hnot : forall m, observeData K data native_seq <> Published m).
  { intros m Hpub. apply WatcherSpec.observeData_Published in Hpub.
    destruct Hpub as (H1 & H2 & H3 & H4 & H5 & H6 & _).
    cbn [In] in Hin.
    repeat (destruct Hin as [<-|Hin];
            [rewrite Hnone in *; discriminate|]).
    exact Hin. }
  split; [exact Hnot|].
  intros Hcase.
  destruct (observeData K data native_seq) as [log|m|msg] eqn:E.
  - now exists log.
  - now elim (Hnot m).
  - apply observeData_Panicked in E.
    destruct E as (Hs & _ & Hp & Hlen & _).
    destruct Hcase as [H|[-> | ->]].
    + lia.
    + rewrite Hnone in Hs. discriminate.
    + rewrite Hnone in Hp. discriminate.
Qed.

Lemma missing_field_never_published_witness :
  exists log,
    observeData Sample.ChainIDAptos
      (Some (obj [("payload", JString "0x0a"); ("sender", JString "1")])) 5
    = Dropped log.
Proof.
  refine (proj2 (missing_field_never_published Sample.ChainIDAptos
                   (Some (obj [("payload", JString "0x0a");
                               ("sender", JString "1")]))
                   5 "timestamp" _ eq_refl) _).
  - cbn. tauto.
  - left. cbn. lia.
Defined.

Lemma substring_all (s : string) : substring 0 (String.length s) s = s.
Proof. induction s as [|c s IH]; cbn; [|rewrite IH]; reflexivity. Qed.

Lemma slice_from_2 (a b : ascii) (rest : string) :
  Go.slice_from 2 (String.String a (String.String b rest)) = Some rest.
Proof.
  unfold Go.slice_from.
  change (String.length (String.String a (String.String b rest)))
    with (S (S (String.length rest))).
  change (2 <=? S (S (String.length rest)))%nat with true.
  replace (S (S (String.length rest)) - 2)%nat with (String.length rest)
    by lia.
  change (substring 2 (String.length rest)
            (String.String a (String.String b rest)))
    with (substring 0 (String.length rest) rest).
  now rewrite substring_all.
Qed.

Lemma DecodeString_length (s : string) :
  forall bs, Go.DecodeString s = Some bs ->
             (2 * List.length bs = String.length s)%nat.
Proof.
  revert s. fix IH 1. intros [|x [|y s]] bs H; cbn in H.
  - inversion H. reflexivity.
  - discriminate.
  - destruct (Go.fromHexChar x); [|discriminate].
    destruct (Go.fromHexChar y); [|discriminate].
    destruct (Go.DecodeString s) as [bs'|] eqn:E; [|discriminate].
    inversion H; subst. cbn [List.length String.length].
    specialize (IH s bs' E). lia.
Qed.

(** X5.  The first two characters of the payload string are cut off
    without being looked at: two events that differ only there are decoded
    alike.  What is published as payload is the hex decoding of the rest,
    so the string has an even length and the payload half as many bytes as
    the string has characters after the first two. *)
Theorem payload_prefix_unchecked K data data' native_seq a b a' b' rest :
  (forall key, key <> "payload" -> Get data' key = Get data key) ->
  Get data "payload"
    = Some (JString (String.String a (String.String b rest))) ->
  Get data' "payload"
    = Some (JString (String.String a' (String.String b' rest))) ->
  observeData K data' native_seq = observeData K data native_seq /\
  forall m, observeData K data native_seq = Published m ->
            Go.DecodeString rest = Some (Payload m) /\
            (2 * List.length (Payload m) = String.length rest)%nat.
Proof.
  intros Hsame Hp Hp'. split.
  - unfold observeData. cbv zeta.
    rewrite Hp, Hp'.
    rewrite !(Hsame "sender"), !(Hsame "timestamp"), !(Hsame "nonce"),
      !(Hsame "sequence"), !(Hsame "consistency_level") by discriminate.
    cbn [String_]. now rewrite !slice_from_2.
  - intros m Hm.
    assert (Hdec : Go.DecodeString rest = Some (Payload m)).
    { revert Hm. unfold observeData. cbv zeta. rewrite Hp.
      cbn [String_]. rewrite slice_from_2.
      intros H. WatcherSpec.step_observe; try discriminate.
      inversion H; subst; cbn [Payload]. reflexivity. }
    split; [exact Hdec|now apply DecodeString_length].
Qed.

Lemma payload_prefix_unchecked_witness :
  observeData Sample.ChainIDAptos
    (Some (Sample.event_data "1" "zz0a0b" "1666000000" "0" "9" "0")) 5
  = observeData Sample.ChainIDAptos
      (Some (Sample.event_data "1" "0x0a0b" "1666000000" "0" "9" "0")) 5.
Proof.
  refine (proj1 (payload_prefix_unchecked Sample.ChainIDAptos
                   (Some (Sample.event_data "1" "0x0a0b" "1666000000" "0" "9" "0"))
                   (Some (Sample.event_data "1" "zz0a0b" "1666000000" "0" "9" "0"))
                   5 "0" "x" "z" "z" "0a0b" _ eq_refl eq_refl)).
  intros key Hkey. unfold Sample.event_data, obj, Get. cbn [lookup].
  repeat match goal with
         | |- context [String.eqb ?k key] =>
             destruct (String.eqb_spec k key); try reflexivity
         end;
    congruence.
Defined.

(** ** Invariants of a run *)

Lemma extends_refl K st : extends K st st.
Proof.
  unfold extends, same_config. repeat split; auto; try lia.
  - exists []. rewrite app_nil_r. cbn. repeat split; auto; lia.
  - exists []. rewrite app_nil_r. split; auto.
Qed.

Lemma own_url_same e e' u : same_config e e' -> own_url e' u -> own_url e u.
Proof.
  intros (_ & _ & _ & Hq & Hh) [->|(params & ->)].
  - left. exact Hh.
  - right. exists params. now rewrite Hq.
Qed.

Lemma extends_trans K st1 st2 st3 :
  extends K st1 st2 -> extends K st2 st3 -> extends K st1 st3.
Proof.
  intros (Hc & (new & Hm & Hwf & Hn) & (urls & Hu & Hown) & He & Hr)
         (Hc' & (new' & Hm' & Hwf' & Hn') & (urls' & Hu' & Hown') & He' & Hr').
  unfold extends. split; [|split; [|split; [|split]]].
  - destruct Hc as (A1 & A2 & A3 & A4 & A5).
    destruct Hc' as (B1 & B2 & B3 & B4 & B5).
    unfold same_config. repeat split; congruence.
  - exists (new ++ new'). repeat split.
    + now rewrite Hm', Hm, app_assoc.
    + apply Forall_app. now split.
    + rewrite Hn', Hn, length_app. lia.
  - exists (urls ++ urls'). split.
    + now rewrite Hu', Hu, app_assoc.
    + apply Forall_app. split; [exact Hown|].
      eapply Forall_impl; [|exact Hown']. intros u. now apply own_url_same.
  - lia.
  - auto.
Qed.

Lemma extends_publish K m st :
  well_formed K m -> extends K st (publish m st).
Proof.
  intros Hwf. unfold extends, same_config. cbn.
  repeat split; auto; try lia.
  - exists [m]. repeat split; auto; cbn; lia.
  - exists []. rewrite app_nil_r. split; auto.
Qed.

Lemma extends_cursor K n st :
  extends K st (set_next_sequence n (fst st), snd st).
Proof.
  unfold extends, same_config. cbn. repeat split; auto; try lia.
  - exists []. rewrite app_nil_r. cbn. repeat split; auto; lia.
  - exists []. rewrite app_nil_r. split; auto.
Qed.

Lemma extends_error K st :
  extends K st (fst st, AddErrorCount 1 (snd st)).
Proof.
  unfold extends, same_config. cbn. repeat split; auto; try lia.
  - exists []. rewrite app_nil_r. cbn. repeat split; auto; lia.
  - exists []. rewrite app_nil_r. split; auto.
Qed.

Lemma extends_request K url st :
  own_url (fst st) url -> extends K st (fst st, http_Get url (snd st)).
Proof.
  intros Hown. unfold extends, same_config. cbn.
  repeat split; auto; try lia.
  - exists []. rewrite app_nil_r. cbn. repeat split; auto; lia.
  - exists [url]. split; auto.
Qed.

Lemma extends_height K h g st :
  extends K st
    (fst st,
     SetReady (SetNetworkStats h (aptosAccount (fst st))
                 (set_height g (snd st)))).
Proof.
  unfold extends, same_config. cbn. repeat split; auto; try lia.
  - exists []. rewrite app_nil_r. cbn. repeat split; auto; lia.
  - exists []. rewrite app_nil_r. split; auto.
Qed.

Lemma obsvReq_range_extends K S chunks :
  forall st, extends K st (fst (obsvReq_range K S chunks st)).
Proof.
  induction chunks as [|chunk rest IH]; intros st; cbn [obsvReq_range].
  - apply extends_refl.
  - destruct (Exists (Get chunk "sequence_number")); cbn [negb];
      [|apply extends_refl].
    destruct (Uint (Get chunk "sequence_number") =? S); cbn [negb];
      [|apply extends_refl].
    destruct (Exists (Get chunk "data")); cbn [negb]; [|apply extends_refl].
    destruct (observeData K (Get chunk "data") S) as [log|m|msg] eqn:E.
    + apply IH.
    + eapply extends_trans; [|apply IH].
      apply extends_publish. eapply observeData_well_formed; eauto.
    + apply extends_refl.
Qed.

Lemma timer_range_extends K page :
  forall st, extends K st (fst (timer_range K page st)).
Proof.
  induction page as [|chunk rest IH]; intros st; cbn [timer_range].
  - apply extends_refl.
  - destruct (Exists (Get chunk "sequence_number")); cbn [negb]; [|apply IH].
    destruct (next_sequence (fst st) =? 0); [apply extends_cursor|].
    destruct (Exists (Get chunk "data")); cbn [negb].
    + destruct (observeData K (Get chunk "data")
                  (Uint (Get chunk "sequence_number")))
        as [log|m|msg] eqn:E.
      * eapply extends_trans; [apply extends_cursor|apply IH].
      * eapply extends_trans; [apply extends_cursor|].
        eapply extends_trans; [|apply IH].
        apply extends_publish. eapply observeData_well_formed; eauto.
      * apply extends_cursor.
    + eapply extends_trans; [apply extends_cursor|apply IH].
Qed.

Lemma Run_health_extends K rpc st : extends K st (fst (Run_health rpc st)).
Proof.
  unfold Run_health, retrievePayload.
  assert (Hreq : extends K st
                   (fst st, http_Get (aptosHealth (fst st)) (snd st)))
    by (apply extends_request; now left).
  destruct (rpc (aptosHealth (fst st))) as [err|[text|health]]; cbn [fst snd].
  - eapply extends_trans; [exact Hreq|]. apply extends_error.
  - eapply extends_trans; [exact Hreq|]. apply extends_error.
  - destruct (Exists (Get (Some health) "block_height")); cbn [fst snd];
      [|exact Hreq].
    eapply extends_trans; [exact Hreq|].
    exact (extends_height K _ _
             (fst st, http_Get (aptosHealth (fst st)) (snd st))).
Qed.

Lemma Run_obsvReq_extends K rpc r st :
  extends K st (fst (Run_obsvReq K rpc r st)).
Proof.
  unfold Run_obsvReq.
  destruct (Go.uint16 (ChainId r) =? K); cbn [negb]; [|apply extends_refl].
  destruct (Go.Uint64 (ReqTxHash r)) as [S|]; [|apply extends_refl].
  unfold retrievePayload. cbv zeta.
  assert (Hreq : extends K st
                   (fst st, http_Get (obsvReq_query (fst st) S) (snd st))).
  { apply extends_request. right. unfold obsvReq_query. eauto. }
  destruct (rpc (obsvReq_query (fst st) S)) as [err|[text|doc]];
    cbn [fst snd].
  - eapply extends_trans; [exact Hreq|]. apply extends_error.
  - eapply extends_trans; [exact Hreq|]. apply extends_error.
  - eapply extends_trans; [exact Hreq|]. apply obsvReq_range_extends.
Qed.

Lemma Run_timer_extends K rpc st : extends K st (fst (Run_timer K rpc st)).
Proof.
  unfold Run_timer, retrievePayload. cbv zeta.
  assert (Hreq : extends K st
                   (fst st, http_Get (timer_query (fst st)) (snd st))).
  { apply extends_request. right. unfold timer_query.
    destruct (next_sequence (fst st) =? 0); eauto. }
  destruct (rpc (timer_query (fst st))) as [err|body]; cbn [fst snd].
  - eapply extends_trans; [exact Hreq|]. apply extends_error.
  - destruct (body_is_empty body); [exact Hreq|].
    destruct body as [text|doc]; cbn [fst snd].
    + eapply extends_trans; [exact Hreq|]. apply extends_error.
    + pose proof (timer_range_extends K (Array (Some doc))
                    (fst st, http_Get (timer_query (fst st)) (snd st))) as Hr.
      destruct (timer_range K (Array (Some doc))
                  (fst st, http_Get (timer_query (fst st)) (snd st)))
        as [st2 c]. cbn [fst] in Hr.
      assert (H2 : extends K st st2) by (eapply extends_trans; eauto).
      destruct c; cbn [fst]; try exact H2.
      eapply extends_trans; [exact H2|]. apply Run_health_extends.
Qed.

Lemma Run_loop_extends K sched :
  forall st, extends K st (fst (Run_loop K sched st)).
Proof.
  induction sched as [|ev rest IH]; intros st; cbn [Run_loop].
  - apply extends_refl.
  - assert (Hstep : extends K st (fst (Run_select K ev st))).
    { destruct ev as [|r rpc|rpc]; cbn [Run_select].
      - apply extends_refl.
      - apply Run_obsvReq_extends.
      - apply Run_timer_extends. }
    destruct (Run_select K ev st) as [st1 c]. cbn [fst] in Hstep.
    destruct c; cbn [fst]; try exact Hstep.
    eapply extends_trans; [exact Hstep|apply IH].
Qed.

Lemma Run_extends K sched st :
  exists st0,
    extends K st0 (fst (Run K sched st)) /\
    msgChan (fst st0) = msgChan (fst st) /\
    aptosMessagesConfirmed (snd st0) = aptosMessagesConfirmed (snd st) /\
    requests (snd st0) = requests (snd st) /\
    errorCount (snd st0) = errorCount (snd st) /\
    ready (snd st0) = ready (snd st) /\
    aptosRPC (fst st0) = aptosRPC (fst st) /\
    aptosQuery (fst st0)
      = (aptosRPC (fst st) ++ "/v1/accounts/" ++ aptosAccount (fst st)
           ++ "/events/" ++ aptosHandle (fst st) ++ "/event")%string /\
    aptosHealth (fst st0) = (aptosRPC (fst st) ++ "/v1")%string.
Proof.
  unfold Run. cbv zeta. eexists. split; [apply Run_loop_extends|].
  cbn. repeat split; reflexivity.
Qed.

Lemma string_app_assoc (a b c : string) :
  ((a ++ b) ++ c = a ++ (b ++ c))%string.
Proof. induction a as [|x a IH]; cbn; [|rewrite IH]; reflexivity. Qed.

Lemma prefix_app (p s : string) : String.prefix p (p ++ s) = true.
Proof.
  induction p as [|x p IH]; cbn; [now destruct s|].
  destruct (ascii_dec x x) as [_|Hne]; [exact IH|now elim Hne].
Qed.

Lemma prefix_refl (p : string) : String.prefix p p = true.
Proof.
  induction p as [|x p IH]; cbn; [reflexivity|].
  destruct (ascii_dec x x) as [_|Hne]; [exact IH|now elim Hne].
Qed.

(** X6.  Whatever the schedule and whatever the node answers, [Run] only
    appends to the channel, and every message it appends is well formed:
    from the Aptos chain, with a 32-byte hash and a 32-byte emitter address
    whose 24 leading bytes are zero, a nonce within 32 bits, a consistency
    level within 8 bits.  The counter of confirmed messages grows by the
    number of messages sent. *)
Theorem run_sends_well_formed K sched st :
  exists new,
    msgChan (fst (fst (Run K sched st))) = msgChan (fst st) ++ new /\
    Forall (well_formed K) new /\
    aptosMessagesConfirmed (snd (fst (Run K sched st)))
      = aptosMessagesConfirmed (snd st) + Z.of_nat (List.length new).
Proof.
  destruct (Run_extends K sched st)
    as (st0 & (_ & (new & Hm & Hwf & Hn) & _) & Hm0 & Hn0 & _).
  exists new. rewrite Hm, Hn, Hm0, Hn0. auto.
Qed.

(** X7.  Whatever the schedule, every request [Run] makes goes to the
    configured node: each URL it asks for begins with the RPC address
    followed by [/v1]. *)
Theorem run_requests_own_node K sched st :
  exists urls,
    requests (snd (fst (Run K sched st))) = requests (snd st) ++ urls /\
    Forall (fun u => String.prefix (aptosRPC (fst st) ++ "/v1") u = true)
      urls.
Proof.
  destruct (Run_extends K sched st)
    as (st0 & (_ & _ & (urls & Hu & Hown) & _) & _ & _ & Hu0 & _ & _ & _
        & Hq & Hh).
  exists urls. rewrite Hu, Hu0. split; [reflexivity|].
  eapply Forall_impl; [|exact Hown].
  intros u [->|(params & ->)].
  - rewrite Hh. apply prefix_refl.
  - rewrite Hq.
    change ("/v1/accounts/" ++ aptosAccount (fst st) ++ "/events/"
              ++ aptosHandle (fst st) ++ "/event")%string
      with ("/v1" ++ ("/accounts/" ++ aptosAccount (fst st) ++ "/events/"
                        ++ aptosHandle (fst st) ++ "/event"))%string.
    rewrite <- string_app_assoc, string_app_assoc. apply prefix_app.
Qed.

(** X8.  Whatever the schedule, the error count of the registry never goes
    down during [Run], and a watcher that was ready stays ready. *)
Theorem run_never_withdraws K sched st :
  errorCount (snd st) <= errorCount (snd (fst (Run K sched st))) /\
  (ready (snd st) = true -> ready (snd (fst (Run K sched st))) = true).
Proof.
  destruct (Run_extends K sched st)
    as (st0 & (_ & _ & _ & He & Hr) & _ & _ & _ & He0 & Hr0 & _).
  rewrite <- He0, <- Hr0. auto.
Qed.

Lemma run_never_withdraws_witness :
  ready (snd (fst (Run Sample.ChainIDAptos
                     [Tick Sample.two_emitters_page; Tick Sample.health_garbled]
                     (Sample.watcher 5, SetReady Sample.process)))) = true.
Proof.
  exact (proj2 (run_never_withdraws Sample.ChainIDAptos
                  [Tick Sample.two_emitters_page; Tick Sample.health_garbled]
                  (Sample.watcher 5, SetReady Sample.process)) eq_refl).
Defined.

(** ** The timer case, continued *)

Lemma Run_health_watcher rpc st : fst (fst (Run_health rpc st)) = fst st.
Proof.
  unfold Run_health, retrievePayload.
  destruct (rpc (aptosHealth (fst st))) as [err|[text|health]];
    try reflexivity.
  now destruct (Exists (Get (Some health) "block_height")).
Qed.

Lemma Run_health_no_panic rpc st msg : snd (Run_health rpc st) <> Panic msg.
Proof.
  unfold Run_health, retrievePayload.
  destruct (rpc (aptosHealth (fst st))) as [err|[text|health]];
    try discriminate.
  destruct (Exists (Get (Some health) "block_height")); discriminate.
Qed.

(** The loop of the timer case on a cold cursor: the first entry that
    carries a sequence number sets the cursor and ends the loop. *)
Lemma timer_range_cold K page :
  forall st,
    next_sequence (fst st) = 0 ->
    timer_range K page st
    = match first_with_seq page with
      | Some c =>
          ((set_next_sequence (Go.uint64 (chunk_seq c + 1)) (fst st), snd st),
           Continue)
      | None => (st, Continue)
      end.
Proof.
  induction page as [|chunk rest IH]; intros st H0; [reflexivity|].
  cbn [timer_range first_with_seq find].
  destruct (Exists (Get chunk "sequence_number")); cbn [negb].
  - now rewrite H0.
  - now apply IH.
Qed.

(** X9.  A tick on an uninitialised cursor asks for the single most recent
    event, sends no message and cannot panic, whatever the node answers.
    When the answer is a JSON page, the cursor becomes the sequence number
    of the first entry that carries one, plus one as a [uint64], and stays
    uninitialised when no entry carries one. *)
Theorem cold_start K rpc st :
  next_sequence (fst st) = 0 ->
  timer_query (fst st) = (aptosQuery (fst st) ++ "?limit=1")%string /\
  msgChan (fst (fst (Run_timer K rpc st))) = msgChan (fst st) /\
  (forall msg, snd (Run_timer K rpc st) <> Panic msg) /\
  (forall doc,
     rpc (timer_query (fst st)) = Got (WellFormed doc) ->
     next_sequence (fst (fst (Run_timer K rpc st)))
     = match first_with_seq (Array (Some doc)) with
       | Some c => Go.uint64 (chunk_seq c + 1)
       | None => 0
       end).
Proof.
  intros H0. split; [unfold timer_query; now rewrite H0|].
  unfold Run_timer, retrievePayload. cbv zeta.
  destruct (rpc (timer_query (fst st))) as [err|body]; cbn [fst snd].
  - repeat split; try discriminate.
  - destruct (body_is_empty body) eqn:Eb;
      [repeat split; try discriminate; destruct body; discriminate|].
    destruct body as [text|doc]; cbn [fst snd].
    + repeat split; discriminate.
    + rewrite (timer_range_cold K (Array (Some doc))
                 (fst st, http_Get (timer_query (fst st)) (snd st)) H0).
      destruct (first_with_seq (Array (Some doc))) as [c|] eqn:Ec.
      * split; [now rewrite Run_health_watcher|].
        split; [intros msg; apply Run_health_no_panic|].
        intros doc' E. inversion E; subst doc'.
        rewrite Run_health_watcher, Ec. reflexivity.
      * split; [now rewrite Run_health_watcher|].
        split; [intros msg; apply Run_health_no_panic|].
        intros doc' E. inversion E; subst doc'.
        rewrite Run_health_watcher, Ec. exact H0.
Qed.

Lemma cold_start_witness :
  msgChan (fst (fst (Run_timer Sample.ChainIDAptos Sample.two_emitters_page
                       (Sample.watcher 0, Sample.process)))) = [] /\
  next_sequence (fst (fst (Run_timer Sample.ChainIDAptos
                             Sample.two_emitters_page
                             (Sample.watcher 0, Sample.process)))) = 6.
Proof.
  destruct (cold_start Sample.ChainIDAptos Sample.two_emitters_page
              (Sample.watcher 0, Sample.process) eq_refl)
    as (_ & Hm & _ & Hn).
  split; [exact Hm|]. rewrite (Hn Sample.two_emitters eq_refl). reflexivity.
Defined.

(** X10.  When the event query itself fails, the health endpoint is not
    queried and no message is sent.  A transport error is counted once and
    [Run] returns it, on a tick and on a request alike.  A body that is not
    JSON is counted once and the loop goes on; but an empty body is counted
    on a request and passed over in silence on a tick. *)
Theorem event_query_failure K rpc st rest :
  (forall err, rpc (timer_query (fst st)) = Failed err ->
     Run_loop K (Tick rpc :: rest) st
     = ((fst st, AddErrorCount 1 (http_Get (timer_query (fst st)) (snd st))),
        Returned err)) /\
  (rpc (timer_query (fst st)) = Got (Malformed "") ->
     Run_timer K rpc st
     = ((fst st, http_Get (timer_query (fst st)) (snd st)), Continue)) /\
  (forall text, text <> "" ->
     rpc (timer_query (fst st)) = Got (Malformed text) ->
     Run_timer K rpc st
     = ((fst st, AddErrorCount 1 (http_Get (timer_query (fst st)) (snd st))),
        Continue)) /\
  (forall r S,
     Go.uint16 (ChainId r) = K -> Go.Uint64 (ReqTxHash r) = Some S ->
     (forall err, rpc (obsvReq_query (fst st) S) = Failed err ->
        Run_loop K (ObsvReq r rpc :: rest) st
        = ((fst st,
            AddErrorCount 1 (http_Get (obsvReq_query (fst st) S) (snd st))),
           Returned err)) /\
     (forall text, rpc (obsvReq_query (fst st) S) = Got (Malformed text) ->
        Run_obsvReq K rpc r st
        = ((fst st,
            AddErrorCount 1 (http_Get (obsvReq_query (fst st) S) (snd st))),
           Continue))).
Proof.
  split; [|split; [|split]].
  - intros err E. cbn [Run_loop Run_select].
    unfold Run_timer, retrievePayload. cbv zeta. now rewrite E.
  - intros E. unfold Run_timer, retrievePayload. cbv zeta. now rewrite E.
  - intros text Hne E. unfold Run_timer, retrievePayload. cbv zeta.
    rewrite E. cbn [body_is_empty]. apply String.eqb_neq in Hne.
    now rewrite Hne.
  - intros r S Hchain Hseq. apply Z.eqb_eq in Hchain. split.
    + intros err E. cbn [Run_loop Run_select]. unfold Run_obsvReq.
      rewrite Hchain, Hseq. cbn [negb]. unfold retrievePayload. cbv zeta.
      now rewrite E.
    + intros text E. unfold Run_obsvReq.
      rewrite Hchain, Hseq. cbn [negb]. unfold retrievePayload. cbv zeta.
      now rewrite E.
Qed.

Lemma event_query_failure_witness :
  errorCount
    (snd (fst (Run_timer Sample.ChainIDAptos
                 (Sample.node Sample.healthy (Got (Malformed "")))
                 (Sample.watcher 5, Sample.process)))) = 0 /\
  errorCount
    (snd (fst (Run_obsvReq Sample.ChainIDAptos
                 (Sample.node Sample.healthy (Got (Malformed "")))
                 (Sample.request 22)
                 (Sample.watcher 5, Sample.process)))) = 1.
Proof.
  destruct (event_query_failure Sample.ChainIDAptos
              (Sample.node Sample.healthy (Got (Malformed "")))
              (Sample.watcher 5, Sample.process) [])
    as (_ & Hempty & _ & Hreq).
  split.
  - rewrite (Hempty eq_refl). reflexivity.
  - destruct (Hreq (Sample.request 22) 5 eq_refl eq_refl) as [_ Hbad].
    rewrite (Hbad "" eq_refl). reflexivity.
Defined.

(** ** Readiness *)

Lemma obsvReq_range_ready K S chunks :
  forall st, ready (snd (fst (obsvReq_range K S chunks st))) = ready (snd st).
Proof.
  induction chunks as [|chunk rest IH]; intros st; cbn [obsvReq_range];
    [reflexivity|].
  destruct (Exists (Get chunk "sequence_number")); cbn [negb]; [|reflexivity].
  destruct (Uint (Get chunk "sequence_number") =? S); cbn [negb];
    [|reflexivity].
  destruct (Exists (Get chunk "data")); cbn [negb]; [|reflexivity].
  destruct (observeData K (Get chunk "data") S); try reflexivity;
    now rewrite IH.
Qed.

Lemma timer_range_ready K page :
  forall st, ready (snd (fst (timer_range K page st))) = ready (snd st).
Proof.
  induction page as [|chunk rest IH]; intros st; cbn [timer_range];
    [reflexivity|].
  destruct (Exists (Get chunk "sequence_number")); cbn [negb]; [|apply IH].
  destruct (next_sequence (fst st) =? 0); [reflexivity|].
  destruct (Exists (Get chunk "data")); cbn [negb]; [|now rewrite IH].
  destruct (observeData K (Get chunk "data")
              (Uint (Get chunk "sequence_number")));
    try reflexivity; now rewrite IH.
Qed.

Lemma Run_health_ready rpc st :
  ready (snd st) = false ->
  ready (snd (fst (Run_health rpc st))) = true ->
  reports_height rpc (aptosHealth (fst st)).
Proof.
  unfold Run_health, retrievePayload, reports_height. intros H0.
  destruct (rpc (aptosHealth (fst st))) as [err|[text|health]];
    cbn [fst snd ready AddErrorCount http_Get]; try congruence.
  destruct (Exists (Get (Some health) "block_height")) eqn:E;
    cbn [fst snd ready http_Get]; [eauto|congruence].
Qed.

Lemma Run_select_ready K ev st :
  ready (snd st) = false ->
  ready (snd (fst (Run_select K ev st))) = true ->
  exists rpc, ev = Tick rpc /\ reports_height rpc (aptosHealth (fst st)).
Proof.
  intros H0. destruct ev as [|r rpc|rpc]; cbn [Run_select].
  - cbn. congruence.
  - unfold Run_obsvReq.
    destruct (Go.uint16 (ChainId r) =? K); cbn [negb fst snd];
      [|congruence].
    destruct (Go.Uint64 (ReqTxHash r)) as [S|]; cbn [fst snd]; [|congruence].
    unfold retrievePayload. cbv zeta.
    destruct (rpc (obsvReq_query (fst st) S)) as [err|[text|doc]];
      cbn [fst snd ready AddErrorCount http_Get]; try congruence.
    rewrite obsvReq_range_ready. cbn. congruence.
  - intros H1. exists rpc. split; [reflexivity|]. revert H1.
    unfold Run_timer, retrievePayload. cbv zeta.
    destruct (rpc (timer_query (fst st))) as [err|body];
      cbn [fst snd ready AddErrorCount http_Get]; [congruence|].
    destruct (body_is_empty body); cbn [fst snd ready http_Get];
      [congruence|].
    destruct body as [text|doc];
      cbn [fst snd ready AddErrorCount http_Get]; [congruence|].
    pose proof (timer_range_ready K (Array (Some doc))
                  (fst st, http_Get (timer_query (fst st)) (snd st))) as Hr.
    pose proof (timer_range_extends K (Array (Some doc))
                  (fst st, http_Get (timer_query (fst st)) (snd st)))
      as ((_ & _ & _ & _ & Hh) & _).
    destruct (timer_range K (Array (Some doc))
                (fst st, http_Get (timer_query (fst st)) (snd st)))
      as [st2 c]. cbn [fst snd ready http_Get] in Hr, Hh.
    destruct c; cbn [fst snd]; try congruence.
    intros H1. rewrite <- Hh. apply Run_health_ready; congruence.
Qed.

Lemma Run_loop_ready K sched :
  forall st,
    ready (snd st) = false ->
    ready (snd (fst (Run_loop K sched st))) = true ->
    exists rpc,
      In (Tick rpc) sched /\ reports_height rpc (aptosHealth (fst st)).
Proof.
  induction sched as [|ev rest IH]; intros st H0; cbn [Run_loop].
  - cbn. congruence.
  - pose proof (Run_select_ready K ev st H0) as Hstep.
    assert (Hcfg : same_config (fst st) (fst (fst (Run_select K ev st)))).
    { destruct ev as [|r rpc|rpc]; cbn [Run_select].
      - exact (proj1 (extends_refl K st)).
      - exact (proj1 (Run_obsvReq_extends K rpc r st)).
      - exact (proj1 (Run_timer_extends K rpc st)). }
    destruct (Run_select K ev st) as [st1 c]. cbn [fst snd] in Hstep, Hcfg.
    assert (Hhere : ready (snd st1) = true ->
              exists rpc, In (Tick rpc) (ev :: rest) /\
                          reports_height rpc (aptosHealth (fst st))).
    { intros H1. destruct (Hstep H1) as (rpc & -> & Hrep).
      exists rpc. split; [now left|exact Hrep]. }
    destruct c; cbn [fst snd]; try exact Hhere.
    intros H1. destruct (ready (snd st1)) eqn:E1; [now apply Hhere|].
    destruct (IH st1 E1 H1) as (rpc & Hin & Hrep).
    exists rpc. split; [now right|].
    destruct Hcfg as (_ & _ & _ & _ & Hh). now rewrite <- Hh.
Qed.

(** X11.  [Run] marks the watcher ready only upon a health answer: if the
    watcher was not ready before and is ready after, then on some tick of
    the schedule the node answered the health query with JSON that carries
    a block height. *)
Theorem ready_only_after_health K sched st :
  ready (snd st) = false ->
  ready (snd (fst (Run K sched st))) = true ->
  exists rpc,
    In (Tick rpc) sched /\
    reports_height rpc (aptosRPC (fst st) ++ "/v1")%string.
Proof.
  intros H0 H1. unfold Run in H1. cbv zeta in H1.
  apply Run_loop_ready in H1; [exact H1|exact H0].
Qed.

Lemma ready_only_after_health_witness :
  exists rpc,
    In (Tick rpc) [Tick Sample.health_garbled; Tick Sample.two_emitters_page] /\
    reports_height rpc "http://node/v1".
Proof.
  exact (ready_only_after_health Sample.ChainIDAptos
           [Tick Sample.health_garbled; Tick Sample.two_emitters_page]
           (Sample.watcher 5, Sample.process) eq_refl eq_refl).
Defined.

End WatcherMore.

(* ================================================================== *)
(** * Further properties of the redeemers *)
(* ================================================================== *)

Module RedeemMore.
Import Redeem.

(** ** Solana *)

Lemma readUInt16BE_None (offset : nat) (b : list byte) :
  readUInt16BE offset b = None <-> (List.length b < offset + 2)%nat.
Proof.
  unfold readUInt16BE.
  pose proof (length_skipn offset b) as Hlen.
  destruct (skipn offset b) as [|hi [|lo tl]]; cbn [List.length] in Hlen;
    split; intros H; try reflexivity; try discriminate; lia.
Qed.

(** X12.  [redeemOnSolana] picks the completion entry point by the origin
    chain alone, the big-endian 16-bit number at offset 65 of the payload:
    the native instruction when it is Solana's chain id, the wrapped one
    otherwise.  What it returns holds that one instruction, names the payer
    as fee payer and is not signed.  A payload of fewer than 67 bytes makes
    it throw a RangeError. *)
Theorem solana_entrypoint sdk connection bridge tokenBridge payer vaa
  feeRecipient :
  (forall tx,
     redeemOnSolana sdk connection bridge tokenBridge payer vaa feeRecipient
       = Return tx ->
     exists v origin,
       parse_vaa sdk vaa = Some v /\
       readUInt16BE 65 (payload v) = Some origin /\
       (67 <= List.length (payload v))%nat /\
       signatures tx = [] /\
       feePayer tx = Some payer /\
       (origin = CHAIN_ID_SOLANA sdk ->
          instructions tx
          = [complete_transfer_native_ix tokenBridge bridge payer vaa
               feeRecipient]) /\
       (origin <> CHAIN_ID_SOLANA sdk ->
          instructions tx
          = [complete_transfer_wrapped_ix tokenBridge bridge payer vaa
               feeRecipient])) /\
  (forall v,
     parse_vaa sdk vaa = Some v ->
     (List.length (payload v) < 67)%nat ->
     redeemOnSolana sdk connection bridge tokenBridge payer vaa feeRecipient
       = Throw "RangeError").
Proof.
  split.
  - unfold redeemOnSolana, bind, try, new_PublicKey. intros tx H.
    destruct (parse_vaa sdk vaa) as [v|]; [|discriminate].
    destruct (readUInt16BE 65 (payload v)) as [origin|] eqn:Eo;
      [|discriminate].
    destruct (getRecentBlockhash connection) as [bh|]; [|discriminate].
    destruct (isPublicKey sdk payer); [|discriminate].
    inversion H; subst; clear H. exists v, origin. cbn.
    repeat split; auto.
    + destruct (Nat.lt_ge_cases (List.length (payload v)) 67) as [Hlt|Hge];
        [|exact Hge].
      apply (proj2 (readUInt16BE_None 65 (payload v))) in Hlt. congruence.
    + intros ->. now rewrite Z.eqb_refl.
    + intros Hne. apply Z.eqb_neq in Hne. now rewrite Hne.
  - intros v Hv Hlen. unfold redeemOnSolana, bind, try. rewrite Hv.
    now rewrite (proj2 (readUInt16BE_None 65 (payload v)) Hlen).
Qed.

Lemma solana_entrypoint_witness :
  redeemOnSolana Sample.sdk Sample.connection "Bridge1" "TokenBridge1"
    "payer1" (Sample.vaa [x01; x02; x03]) None = Throw "RangeError".
Proof.
  refine (proj2 (solana_entrypoint Sample.sdk Sample.connection "Bridge1"
                   "TokenBridge1" "payer1" (Sample.vaa [x01; x02; x03]) None)
            {| payload := [x01; x02; x03] |} eq_refl _).
  cbn. lia.
Defined.

(** ** NEAR *)

(** Every way [redeemOnNear] can go, one client answer at a time. *)
Ltac near_paths H :=
  unfold redeemOnNear, mbind, client_viewFunction,
    client_getForeignAssetNear, client_functionCall, ret, throw in H;
  repeat (cbn [fst snd app negb] in H;
          match type of H with
          | context [match ?x with _ => _ end] =>
              lazymatch x with
              | context [match _ with _ => _ end] => fail
              | _ => destruct x eqn:?
              end
          | context [if ?b then _ else _] =>
              lazymatch b with
              | context [if _ then _ else _] => fail
              | context [match _ with _ => _ end] => fail
              | _ => destruct b eqn:?
              end
          end);
  cbn [fst snd app negb] in H.

(** X15.  For the asset with the all-zero contract [redeemOnNear] looks up
    no storage balance and registers nobody, fee or no fee: everything it
    asks of the client is the recipient lookup, the asset lookup and
    [submit_vaa]. *)
Theorem near_native_asset_unregistered W sdk (client : Account W)
  tokenBridge vaa w p op :
  _parseVAAAlgorand sdk vaa = Some p ->
  Contract p = zero_contract ->
  In op (snd (snd (redeemOnNear sdk client tokenBridge vaa (w, [])))) ->
  op = ViewFunction tokenBridge "hash_lookup"
         [("hash", JsString (uint8ArrayToHex sdk (ToAddress p)))] \/
  op = GetForeignAsset tokenBridge (FromChain p) (Contract p) \/
  op = Call (submit_vaa sdk tokenBridge vaa).
Proof.
  intros Hp Hc H.
  unfold redeemOnNear in H. rewrite Hp, Hc in H. rewrite Hc.
  change (negb (String.eqb zero_contract zero_contract)) with false in H.
  fold (@redeemOnNear W) in H. near_paths H.
  all: cbn [In] in H.
  all: repeat match goal with
         | H : _ \/ _ |- _ => destruct H as [H|H]
         | H : False |- _ => elim H
         end.
  all: subst; auto.
Qed.

Lemma near_native_asset_unregistered_witness :
  Sample.called_methods
    (snd (snd (redeemOnNear Sample.sdk Sample.relayer "token.bridge"
                 Sample.native_to_near ([], []))))
  = ["submit_vaa"; "submit_vaa"] /\
  forall op,
    In op (snd (snd (redeemOnNear Sample.sdk Sample.relayer "token.bridge"
                       Sample.native_to_near ([], [])))) ->
    forall token account, op <> storage_balance_of token account.
Proof.
  split; [vm_compute; reflexivity|].
  destruct (_parseVAAAlgorand Sample.sdk Sample.native_to_near) as [p|] eqn:E;
    [|vm_compute in E; discriminate].
  assert (Hc : Contract p = zero_contract)
    by (vm_compute in E; inversion E; reflexivity).
  intros op Hin token account ->.
  destruct (near_native_asset_unregistered Sample.Chain Sample.sdk
              Sample.relayer "token.bridge" Sample.native_to_near [] p _
              E Hc Hin) as [H|[H|H]]; inversion H.
Defined.

(** X16.  A redemption on NEAR that returns has submitted the message
    twice: its last two operations are the same [submit_vaa] call, the
    second made on the chain as the first left it, and the value returned
    is the result of the second.  Whatever it called before was a
    [storage_deposit]. *)
Theorem near_submits_twice W sdk (client : Account W) tokenBridge vaa w r :
  fst (redeemOnNear sdk client tokenBridge vaa (w, [])) = Return r ->
  exists before w1 o1 w2 o2,
    snd (snd (redeemOnNear sdk client tokenBridge vaa (w, [])))
    = before ++ [Call (submit_vaa sdk tokenBridge vaa);
                 Call (submit_vaa sdk tokenBridge vaa)] /\
    functionCall client w1 (submit_vaa sdk tokenBridge vaa) = Some (o1, w2) /\
    functionCall client w2 (submit_vaa sdk tokenBridge vaa)
      = Some (o2, fst (snd (redeemOnNear sdk client tokenBridge vaa (w, [])))) /\
    r = getTransactionLastResult o2 /\
    forall c, In (Call c) before -> methodName c = "storage_deposit".
Proof.
  remember (redeemOnNear sdk client tokenBridge vaa (w, [])) as res eqn:H.
  intros Hr. near_paths H.
  all: subst res; cbn [fst snd] in Hr |- *; try discriminate Hr.
  all: inversion Hr; subst; clear Hr.
  all: match goal with
       | H1 : functionCall _ ?wa (submit_vaa _ _ _) = Some (?oa, ?wb),
         H2 : functionCall _ ?wb (submit_vaa _ _ _) = Some (?ob, _)
         |- exists before w1 o1 w2 o2, ?l = _ /\ _ =>
           let n := eval cbv in (List.length l - 2)%nat in
           exists (firstn n l), wa, oa, wb, ob;
           cbn [firstn];
           split; [reflexivity|];
           split; [exact H1|];
           split; [exact H2|];
           split; [reflexivity|]
       end.
  all: intros c Hin; cbn [In] in Hin;
    repeat match goal with
      | H : _ \/ _ |- _ => destruct H as [H|H]
      | H : False |- _ => elim H
      | H : ViewFunction _ _ _ = Call _ |- _ => discriminate H
      | H : GetForeignAsset _ _ _ = Call _ |- _ => discriminate H
      | H : Call _ = Call _ |- _ => inversion H; subst; clear H
      end; reflexivity.
Qed.

Lemma near_submits_twice_witness :
  exists before,
    snd (snd (redeemOnNear Sample.sdk Sample.relayer "token.bridge"
                (Sample.to_near 0) ([], [])))
    = before ++ [Call (submit_vaa Sample.sdk "token.bridge" (Sample.to_near 0));
                 Call (submit_vaa Sample.sdk "token.bridge" (Sample.to_near 0))].
Proof.
  destruct (near_submits_twice Sample.Chain Sample.sdk Sample.relayer
              "token.bridge" (Sample.to_near 0) [] (JsString "done"))
    as (before & w1 & o1 & w2 & o2 & Hops & _).
  - vm_compute. reflexivity.
  - exists before. exact Hops.
Defined.

(** X17.  Whatever the client answers, one call of [redeemOnNear] attaches
    at most 0.204 NEAR in deposits (two registrations at 0.002 and two
    submissions at 0.1) and allows at most 500 Tgas. *)
Theorem near_cost_bound W sdk (client : Account W) tokenBridge vaa w :
  attached (snd (snd (redeemOnNear sdk client tokenBridge vaa (w, []))))
    <= 204000000000000000000000 /\
  gas_allowed (snd (snd (redeemOnNear sdk client tokenBridge vaa (w, []))))
    <= 500000000000000.
Proof.
  remember (redeemOnNear sdk client tokenBridge vaa (w, [])) as res eqn:H.
  near_paths H.
  all: subst res; cbn [fst snd attached gas_allowed fold_right
                         attachedDeposit gas storage_deposit submit_vaa].
  all: split; lia.
Qed.

End RedeemMore.
